(** * The merge/commit pipeline of the file service (Code/main.py)

    A shallow embedding of the FastAPI handlers [upload_file],
    [view_stored_files], [merge_files_temporarily] and [save_merged_dataset]
    together with the three stores they drive: the MinIO bucket
    (Code/minio_service.py), the [files] table (Code/database.py) and the
    in-memory result cache.

    Handlers are state transformers over a [World]; a Python exception is an
    explicit [Raise] outcome and leaves behind whatever was written before it
    was raised. *)

From Stdlib Require Import ZArith Ascii String List Lia Bool.
From stdpp Require Import base tactics option list strings gmap pretty.

Local Open Scope string_scope.
Local Open Scope Z_scope.

(** ** Python strings

    A Python [str] is modelled by the string of its UTF-8 bytes.  The
    characters the handlers look at ('.', '/', and the ASCII letters of the
    format names) are single bytes that never occur inside a multi-byte
    sequence, so slicing at their positions agrees with slicing the code
    points. *)
Module PyStr.

Definition chars (s : string) : list ascii := list_ascii_of_string s.
Definition of_chars (l : list ascii) : string := string_of_list_ascii l.

(** [str.lower] on the ASCII range: 'A'..'Z' move to 'a'..'z'.  No
    code point outside ASCII lowers to one of the letters of "csv",
    "xlsx" or "xls", so the format checks see the same result. *)
Definition lower_char (c : ascii) : ascii :=
  let n := nat_of_ascii c in
  if (Nat.leb 65 n && Nat.leb n 90)%bool then ascii_of_nat (n + 32) else c.

Definition lower (s : string) : string := of_chars (map lower_char (chars s)).

(** [s.lstrip('.')] and [s.strip('.')]. *)
Fixpoint lstrip_dots (l : list ascii) : list ascii :=
  match l with
  | c :: t => if Ascii.eqb c "." then lstrip_dots t else l
  | [] => []
  end.

Definition strip_dots (s : string) : string :=
  of_chars (rev (lstrip_dots (rev (lstrip_dots (chars s))))).

(** [p.rfind(c)]: the highest index holding [c], or -1.  [i] is the index
    of the head of [l]. *)
Fixpoint rfind_from (c : ascii) (l : list ascii) (i : Z) : Z :=
  match l with
  | [] => -1
  | x :: t =>
      let later := rfind_from c t (i + 1) in
      if 0 <=? later then later
      else if Ascii.eqb x c then i else -1
  end.

Definition rfind (c : ascii) (l : list ascii) : Z := rfind_from c l 0.

(** Slices [p[:i]] and [p[i:]] for [0 <= i]. *)
Definition slice_to (l : list ascii) (i : Z) : list ascii := take (Z.to_nat i) l.
Definition slice_from (l : list ascii) (i : Z) : list ascii := drop (Z.to_nat i) l.

(** The loop of [genericpath._splitext] that skips the leading dots of the
    file name: it answers [true] as soon as a character other than '.' is
    met before [dotIndex]. *)
Fixpoint has_stem (steps : nat) (p : list ascii) (filenameIndex dotIndex : Z) : bool :=
  match steps with
  | O => false
  | S steps' =>
      if filenameIndex <? dotIndex then
        match p !! Z.to_nat filenameIndex with
        | Some c =>
            if Ascii.eqb c "." then has_stem steps' p (filenameIndex + 1) dotIndex
            else true
        | None => true
        end
      else false
  end.

(** [os.path.splitext] (posixpath: separator '/', no alternative separator). *)
Definition splitext (s : string) : string * string :=
  let p := chars s in
  let sepIndex := rfind "/" p in
  let dotIndex := rfind "." p in
  if (sepIndex <? dotIndex)
     && has_stem (Z.to_nat (dotIndex - sepIndex)) p (sepIndex + 1) dotIndex
  then (of_chars (slice_to p dotIndex), of_chars (slice_from p dotIndex))
  else (s, "").

End PyStr.

(** ** Exceptions and outcomes *)

Inductive exn : Type :=
| HTTPException (status_code : Z) (detail : string)
| ConnectionError (msg : string)
| AttributeError (msg : string)
| ValueError (msg : string)
| S3Error (msg : string)
| IntegrityError (msg : string)
| LibraryError (msg : string).

(** [str(e)], as the f-strings of the handlers print it. *)
Definition exn_str (e : exn) : string :=
  match e with
  | HTTPException status detail => pretty status +:+ ": " +:+ detail
  | ConnectionError m | AttributeError m | ValueError m
  | S3Error m | IntegrityError m | LibraryError m => m
  end.

Definition is_ConnectionError (e : exn) : bool :=
  match e with ConnectionError _ => true | _ => false end.

Definition is_S3Error (e : exn) : bool :=
  match e with S3Error _ => true | _ => false end.

Inductive outcome (A : Type) : Type :=
| Ok (a : A)
| Raise (e : exn).
Arguments Ok {A} a.
Arguments Raise {A} e.

(** ** Data frames

    A [DataFrame] is an ordered list of column labels and a list of rows.
    Cells are values of the codec's own domain: how a cell is spelled in a
    CSV line, an Excel sheet or a JSON text is the business of pandas and is
    not described here. *)

Record DataFrame (value : Type) : Type := mkDataFrame {
  columns : list string;
  rows : list (list value)
}.
Arguments mkDataFrame {value} _ _.
Arguments columns {value} _.
Arguments rows {value} _.

(** Every row has one cell per column. *)
Definition rectangular {value} (df : DataFrame value) : Prop :=
  Forall (fun r => length r = length (columns df)) (rows df).

(** The pandas capabilities the handlers call, with the cell domain they work
    on: the missing-value marker and equality of cells (what [pd.merge]
    compares join keys with), the readers and writers of byte blobs, and the
    two places where JSON changes a table: a cell is written as JSON spells
    it (a float with ten decimals, say), and a table read from JSON has its
    column types inferred afresh. *)
Class Pandas (value : Type) : Type := {
  value_eq_dec :: EqDecision value;
  nan : value;
  read_csv : string -> outcome (DataFrame value);
  read_excel : string -> outcome (DataFrame value);
  to_csv : DataFrame value -> string;      (* [df.to_csv(buf, index=False)] *)
  to_excel : DataFrame value -> string;    (* [df.to_excel(buf, index=False)] *)
  json_cell : value -> value;              (* a cell as [to_json] writes it *)
  json_infer : DataFrame value -> DataFrame value   (* the inference of [read_json] *)
}.

(** A row object of the record orientation: the cells of one row, keyed by
    column label, in column order. *)
Definition record (value : Type) : Type := list (string * value).

Section Frames.
Context {value : Type} `{Pandas value}.

(** Position of a label in [df.columns]. *)
Fixpoint column_index (c : string) (cols : list string) : option nat :=
  match cols with
  | [] => None
  | x :: t => if decide (x = c) then Some O else S <$> column_index c t
  end.

(** [c in df.columns] *)
Definition has_column (c : string) (df : DataFrame value) : bool :=
  bool_decide (c ∈ columns df).

(** Labels of the merged frame: a non-key label carried by both sides gets
    the default suffixes "_x" (left) and "_y" (right). *)
Definition suffix_left (on : string) (right_cols : list string) (c : string) : string :=
  if decide (c = on) then c
  else if bool_decide (c ∈ right_cols) then c +:+ "_x" else c.

Definition suffix_right (left_cols : list string) (c : string) : string :=
  if bool_decide (c ∈ left_cols) then c +:+ "_y" else c.

(** The rows of an inner join on the cells at positions [i1] and [i2]: each
    left row, in order, is paired with every right row carrying an equal
    key; the joined row is the left row followed by the right row without
    its key cell. *)
Definition inner_join_rows (i1 i2 : nat) (rows1 rows2 : list (list value)) : list (list value) :=
  r1 ← rows1;
  (fun r2 => (r1 ++ delete i2 r2)%list) <$> filter (fun r2 => r1 !! i1 = r2 !! i2) rows2.

(** [pd.merge(df1, df2, on=on, how='inner')] *)
Definition pd_merge (df1 df2 : DataFrame value) (on : string) : outcome (DataFrame value) :=
  match column_index on (columns df1), column_index on (columns df2) with
  | Some i1, Some i2 =>
      Ok {| columns := ((suffix_left on (columns df2) <$> columns df1)
                        ++ (suffix_right (columns df1) <$> delete i2 (columns df2)))%list;
            rows := inner_join_rows i1 i2 (rows df1) (rows df2) |}
  | _, _ => Raise (LibraryError (on))    (* KeyError *)
  end.

(** Row objects of a frame: [{label: cell}] per row. *)
Definition to_records (df : DataFrame value) : list (record value) :=
  (fun r => zip (columns df) r) <$> rows df.

(** The row objects as JSON spells them: every cell as [to_json] writes it. *)
Definition json_records (df : DataFrame value) : list (record value) :=
  (fun r => zip (columns df) (json_cell <$> r)) <$> rows df.

(** [df.to_json(orient="records")]: the JSON array of the row objects.  The
    text is represented by the array it spells.  pandas refuses frames
    whose labels are not unique in this orientation. *)
Definition to_json (df : DataFrame value) : outcome (list (record value)) :=
  if decide (NoDup (columns df)) then Ok (json_records df)
  else Raise (ValueError "DataFrame columns must be unique for orient='records'.").

(** [df.to_dict(orient="records")], reached only with unique labels. *)
Definition to_dict (df : DataFrame value) : list (record value) := to_records df.

(** [df.head()], with its default of five rows. *)
Definition head (df : DataFrame value) : DataFrame value :=
  {| columns := columns df; rows := take 5 (rows df) |}.

(** [pd.read_json(text, orient="records")]: the labels are the keys of the
    row objects in order of first appearance; a key absent from an object
    reads as the missing value.  An empty array gives a frame without
    columns. *)
Fixpoint add_keys (seen : list string) (keys : list string) : list string :=
  match keys with
  | [] => seen
  | k :: t => add_keys (if bool_decide (k ∈ seen) then seen else (seen ++ [k])%list) t
  end.

Fixpoint json_columns (seen : list string) (recs : list (record value)) : list string :=
  match recs with
  | [] => seen
  | r :: t => json_columns (add_keys seen (r.*1)) t
  end.

Fixpoint record_get (c : string) (r : record value) : option value :=
  match r with
  | [] => None
  | (k, v) :: t => if decide (k = c) then Some v else record_get c t
  end.

Definition read_json (recs : list (record value)) : DataFrame value :=
  let cols := json_columns [] recs in
  json_infer
    {| columns := cols;
       rows := (fun r => (fun c => default nan (record_get c r)) <$> cols) <$> recs |}.

(** [get_file_dataframe] (main.py, lines 32-42). *)
Definition get_file_dataframe (minio_data : string) (file_format : string)
  : outcome (DataFrame value) :=
  let attempt :=
    if decide (PyStr.lower file_format = "csv") then read_csv minio_data
    else if bool_decide (PyStr.lower file_format ∈ ["xlsx"; "xls"]) then read_excel minio_data
    else Raise (ValueError "Unsupported file format.") in
  match attempt with
  | Ok df => Ok df
  | Raise e => Raise (HTTPException 400 ("Error reading file into DataFrame: " +:+ exn_str e))
  end.

End Frames.

(** ** The world the handlers run in *)

(** A row of the [files] table (database.py, lines 20-24). *)
Record FileMetadata : Type := mkFileMetadata {
  id : Z;
  filename : string;
  format : string
}.

(** An object of a MinIO bucket: its bytes and the content type given at
    write time. *)
Record object : Type := mkObject {
  data : string;
  content_type : string
}.

(** The MinIO server as its client sees it: either every call raises [e]
    (the server is unreachable or refuses the credentials), or it serves its
    buckets. *)
Inductive server : Type :=
| Failing (e : exn)
| Serving (buckets : gmap string (gmap string object)).

(** A constructed [MinioService]: the client bound to its bucket name. *)
Record MinioService : Type := mkMinioService {
  bucket_name : string
}.

Record World (value : Type) : Type := mkWorld {
  minio_service : option MinioService;   (* the module global; [None] is Python's None *)
  minio : server;
  files : list FileMetadata;             (* table [files], in insertion order *)
  next_id : Z;                           (* the sequence behind the primary key *)
  cache : gmap string (list (record value) * Z);   (* key -> (payload, expiry stamp) *)
  now : Z                                (* the clock, in seconds *)
}.
Arguments mkWorld {value} _ _ _ _ _ _.
Arguments minio_service {value} _.
Arguments minio {value} _.
Arguments files {value} _.
Arguments next_id {value} _.
Arguments cache {value} _.
Arguments now {value} _.

(** What [/files/merge] answers. *)
Record MergedPreviewResponse (value : Type) : Type := mkMergedPreviewResponse {
  cache_key : string;
  preview : list (record value);
  message : string
}.
Arguments mkMergedPreviewResponse {value} _ _ _.
Arguments cache_key {value} _.
Arguments preview {value} _.
Arguments message {value} _.

(** ** Computations that read and write the world and may raise *)

Definition Handler (W A : Type) : Type := W -> outcome A * W.

Definition ret {W A} (a : A) : Handler W A := fun w => (Ok a, w).
Definition raise {W A} (e : exn) : Handler W A := fun w => (Raise e, w).
Definition lift {W A} (o : outcome A) : Handler W A := fun w => (o, w).

Definition bind {W A B} (k : A -> Handler W B) (m : Handler W A) : Handler W B :=
  fun w =>
    match m w with
    | (Ok a, w') => k a w'
    | (Raise e, w') => (Raise e, w')
    end.

#[global] Instance Handler_ret {W} : MRet (Handler W) := fun A => @ret W A.
#[global] Instance Handler_bind {W} : MBind (Handler W) := fun A B => @bind W A B.

(** [try: body except ...]: the handler picks the clause for the exception
    raised, [None] when no clause matches and the exception travels on.
    Writes made by [body] before it raised stay. *)
Definition try_except {W A} (body : Handler W A) (clauses : exn -> option (Handler W A))
  : Handler W A :=
  fun w =>
    match body w with
    | (Ok a, w') => (Ok a, w')
    | (Raise e, w') =>
        match clauses e with
        | Some h => h w'
        | None => (Raise e, w')
        end
    end.

(** A write to the world that cannot raise. *)
Definition modify {W} (f : W -> W) : Handler W unit := fun w => (Ok tt, f w).

Section Stores.
Context {value : Type} `{Pandas value}.

Abbreviation World := (World value).

Definition set_minio_service (s : option MinioService) (w : World) : World :=
  mkWorld s (minio w) (files w) (next_id w) (cache w) (now w).
Definition set_minio (m : server) (w : World) : World :=
  mkWorld (minio_service w) m (files w) (next_id w) (cache w) (now w).
Definition set_files (fs : list FileMetadata) (n : Z) (w : World) : World :=
  mkWorld (minio_service w) (minio w) fs n (cache w) (now w).
Definition set_cache (c : gmap string (list (record value) * Z)) (w : World) : World :=
  mkWorld (minio_service w) (minio w) (files w) (next_id w) c (now w).
(** [dt] seconds pass. *)
Definition elapse (dt : Z) (w : World) : World :=
  mkWorld (minio_service w) (minio w) (files w) (next_id w) (cache w) (now w + dt).

(** *** The MinIO client *)

Definition bucket_exists (b : string) : Handler World bool :=
  fun w =>
    match minio w with
    | Failing e => (Raise e, w)
    | Serving bs => (Ok (bool_decide (is_Some (bs !! b))), w)
    end.

Definition make_bucket (b : string) : Handler World unit :=
  fun w =>
    match minio w with
    | Failing e => (Raise e, w)
    | Serving bs => (Ok tt, set_minio (Serving (<[b := ∅]> bs)) w)
    end.

Definition put_object (b key bytes ctype : string) : Handler World unit :=
  fun w =>
    match minio w with
    | Failing e => (Raise e, w)
    | Serving bs =>
        match bs !! b with
        | None => (Raise (S3Error "NoSuchBucket"), w)
        | Some objs =>
            (Ok tt, set_minio (Serving (<[b := <[key := mkObject bytes ctype]> objs]> bs)) w)
        end
    end.

Definition get_object (b key : string) : Handler World string :=
  fun w =>
    match minio w with
    | Failing e => (Raise e, w)
    | Serving bs =>
        match bs !! b with
        | None => (Raise (S3Error "NoSuchBucket"), w)
        | Some objs =>
            match objs !! key with
            | None => (Raise (S3Error "NoSuchKey"), w)
            | Some o => (Ok (data o), w)
            end
        end
    end.

(** *** minio_service.py *)

(** [settings.MINIO_BUCKET_NAME] (config.py, line 13). *)
Definition MINIO_BUCKET_NAME : string := "data-files".

(** [MinioService._ensure_bucket_exists] (lines 20-27). *)
Definition _ensure_bucket_exists (self : MinioService) : Handler World unit :=
  try_except
    (present ← bucket_exists (bucket_name self);
     if negb present then make_bucket (bucket_name self) else ret tt)
    (fun err =>
       if is_S3Error err
       then Some (raise (ConnectionError "Could not connect to MinIO. Is it running?"))
       else None).

(** [MinioService.__init__] (lines 7-18). *)
Definition MinioService_init : Handler World MinioService :=
  try_except
    (let self := mkMinioService MINIO_BUCKET_NAME in
     _ensure_bucket_exists self;; ret self)
    (fun err =>
       Some (raise (ConnectionError
                      ("Could not initialize MinIO client: " +:+ exn_str err
                       +:+ ". Is MinIO running?")))).

(** The module body (lines 48-51): the global is bound to the service, or
    to None when its construction raised [ConnectionError]. *)
Definition load_minio_service : Handler World unit :=
  try_except
    (svc ← MinioService_init;
     modify (set_minio_service (Some svc)))
    (fun e =>
       if is_ConnectionError e
       then Some (modify (set_minio_service None))
       else None).

(** [MinioService.upload_file] (lines 29-38). *)
Definition MinioService_upload_file (self : MinioService)
    (filename bytes ctype : string) : Handler World bool :=
  put_object (bucket_name self) filename bytes ctype;; ret true.

(** [MinioService.fetch_file] (lines 40-46). *)
Definition MinioService_fetch_file (self : MinioService) (filename : string)
  : Handler World string :=
  get_object (bucket_name self) filename.

(** A method call on the global [minio_service]: on None the attribute
    lookup raises. *)
Definition on_minio_service {A} (method : string)
    (call : MinioService -> Handler World A) : Handler World A :=
  fun w =>
    match minio_service w with
    | Some self => call self w
    | None =>
        (Raise (AttributeError
                  ("'NoneType' object has no attribute '" +:+ method +:+ "'")), w)
    end.

(** *** The [files] table *)

(** [db.query(FileMetadata).filter(FileMetadata.id == i).first()] *)
Definition query_first (i : Z) : Handler World (option FileMetadata) :=
  fun w => (Ok (List.find (fun r => bool_decide (id r = i)) (files w)), w).

(** [db.query(FileMetadata).all()] *)
Definition query_all : Handler World (list FileMetadata) :=
  fun w => (Ok (files w), w).

(** [db.add(row); db.commit(); db.refresh(row)]: the insert is refused when
    the [unique=True] column [filename] (database.py, line 23) already
    holds the name; otherwise the row gets the next identity.  A sequence
    value burnt by a refused insert is not modelled. *)
Definition add_commit_refresh (name fmt : string) : Handler World FileMetadata :=
  fun w =>
    if bool_decide (name ∈ filename <$> files w)
    then (Raise (IntegrityError "duplicate key value violates unique constraint"), w)
    else
      let row := mkFileMetadata (next_id w) name fmt in
      (Ok row, set_files (files w ++ [row])%list (next_id w + 1) w).

(** *** The result cache (the in-memory backend of fastapi_cache)

    [set] stamps the entry with the time it expires at; [get] answers None
    for a key that was never set and for an entry whose stamp lies in the
    past; [delete], which line 180 calls on the backend, is taken to do what
    its name says: it removes the entry, if any, and does not raise. *)
Definition cache_set (key : string) (payload : list (record value)) (expire : Z)
  : Handler World unit :=
  fun w => (Ok tt, set_cache (<[key := (payload, now w + expire)]> (cache w)) w).

Definition cache_get (key : string) : Handler World (option (list (record value))) :=
  fun w =>
    (Ok (match cache w !! key with
         | Some (payload, ttl_ts) => if ttl_ts <? now w then None else Some payload
         | None => None
         end), w).

Definition cache_delete (key : string) : Handler World unit :=
  fun w => (Ok tt, set_cache (delete key (cache w)) w).

End Stores.

(** ** The handlers of main.py *)

(** What a client sends as the multipart [file] of an upload. *)
Record UploadFile : Type := mkUploadFile {
  upload_filename : string;
  upload_content : string;
  upload_content_type : string
}.

(** [os.path.splitext(name)[1].lower()] then [.strip('.')] (lines 66-67 and
    153-154). *)
Definition extension_tag (name : string) : string :=
  let ext := PyStr.lower (snd (PyStr.splitext name)) in
  PyStr.strip_dots ext.

(** [int(timedelta(hours=h).total_seconds())] *)
Definition hours_in_seconds (h : Z) : Z := h * 3600.

Definition xlsx_content_type : string :=
  "application/vnd.openxmlformats-officedocument.spreadsheetml.sheet".

Section Handlers.
Context {value : Type} `{Pandas value}.

Abbreviation World := (World value).

(** [POST /files/upload] (lines 59-88). *)
Definition upload_file (file : UploadFile) : Handler World FileMetadata :=
  let file_format := extension_tag (upload_filename file) in
  if negb (bool_decide (file_format ∈ ["csv"; "xlsx"]))
  then raise (HTTPException 400 "Invalid file format.")
  else
    let filename := upload_filename file in
    let file_content := upload_content file in
    try_except
      (on_minio_service "upload_file"
         (fun svc => MinioService_upload_file svc filename file_content
                       (upload_content_type file)))
      (fun e =>
         if is_ConnectionError e
         then Some (raise (HTTPException 503 ("MinIO Service Unavailable: " +:+ exn_str e)))
         else Some (raise (HTTPException 500
                             ("Failed to upload file to MinIO: " +:+ exn_str e))));;
    try_except
      (add_commit_refresh filename file_format)
      (fun _ =>
         Some (raise (HTTPException 500 "Database error: Failed to store file metadata."))).

(** [GET /files] (lines 90-94). *)
Definition view_stored_files : Handler World (list FileMetadata) := query_all.

(** Lines 110-116 of [merge_files_temporarily]: both fetches, then both
    decodes, any exception reported as a 500. *)
Definition fetch_and_read (meta1 meta2 : FileMetadata)
  : Handler World (DataFrame value * DataFrame value) :=
  try_except
    (data1 ← on_minio_service "fetch_file"
               (fun svc => MinioService_fetch_file svc (filename meta1));
     data2 ← on_minio_service "fetch_file"
               (fun svc => MinioService_fetch_file svc (filename meta2));
     df1 ← lift (get_file_dataframe data1 (format meta1));
     df2 ← lift (get_file_dataframe data2 (format meta2));
     ret (df1, df2))
    (fun e =>
       Some (raise (HTTPException 500 ("Error fetching/reading files: " +:+ exn_str e)))).

(** [GET /files/merge] (lines 96-135).  [uuid4] is the text of the UUID
    that [uuid.uuid4()] draws during this call. *)
Definition merge_files_temporarily (uuid4 : string)
    (file_id_1 file_id_2 : Z) (common_column : string)
  : Handler World (MergedPreviewResponse value) :=
  meta1 ← query_first file_id_1;
  meta2 ← query_first file_id_2;
  match meta1, meta2 with
  | Some meta1, Some meta2 =>
      '(df1, df2) ← fetch_and_read meta1 meta2;
      if negb (has_column common_column df1) || negb (has_column common_column df2)
      then raise (HTTPException 400
                    ("Common column '" +:+ common_column +:+ "' not found."))
      else
        merged_df ← lift (pd_merge df1 df2 common_column);
        merged_json ← lift (to_json merged_df);
        let cache_key := uuid4 in
        cache_set cache_key merged_json (hours_in_seconds 1);;
        let preview_data := to_dict (head merged_df) in
        ret (mkMergedPreviewResponse cache_key preview_data
               ("Merged dataset cached in memory with key: " +:+ cache_key))
  | _, _ => raise (HTTPException 404 "One or both file IDs not found.")
  end.

(** Lines 156-166 of [save_merged_dataset]: the bytes and the content type
    for the target format, or the 400 of the [else] branch. *)
Definition encode_as (file_format : string) (merged_df : DataFrame value)
  : outcome (string * string) :=
  if decide (file_format = "csv") then Ok (to_csv merged_df, "text/csv")
  else if bool_decide (file_format ∈ ["xlsx"; "xls"])
       then Ok (to_excel merged_df, xlsx_content_type)
       else Raise (HTTPException 400 "New file format must be CSV or XLSX.").

(** [POST /files/save_merged] (lines 137-182).  The cached payload is a
    JSON text, which is never the empty string, so [not merged_json] holds
    exactly when the cache answered None. *)
Definition save_merged_dataset (cache_key new_filename : string)
  : Handler World FileMetadata :=
  merged_json ← cache_get cache_key;
  match merged_json with
  | None => raise (HTTPException 404 "Merged dataset not found or has expired in cache.")
  | Some merged_json =>
      let merged_df := read_json merged_json in
      let file_format := extension_tag new_filename in
      '(bytes, ctype) ← lift (encode_as file_format merged_df);
      try_except
        (on_minio_service "upload_file"
           (fun svc => MinioService_upload_file svc new_filename bytes ctype))
        (fun e =>
           Some (raise (HTTPException 500
                          ("Failed to upload merged file to MinIO: " +:+ exn_str e))));;
      db_file ← add_commit_refresh new_filename file_format;
      cache_delete cache_key;;
      ret db_file
  end.

(** Reading a registered file back: the fetch and the decode that
    [merge_files_temporarily] performs for one file. *)
Definition fetch_dataframe (name fmt : string) : Handler World (DataFrame value) :=
  bytes ← on_minio_service "fetch_file" (fun svc => MinioService_fetch_file svc name);
  lift (get_file_dataframe bytes fmt).

End Handlers.

(** ** A reference codec over text cells

    A small comma-and-newline codec whose cells are pieces of text, used to
    run the pipeline on concrete files.  Like pandas it writes the header
    line first, writes a lone newline for a frame without columns, and
    refuses to read a text with no line to take the columns from. *)
Module TextCodec.

Definition newline : ascii := ascii_of_nat 10.

(** [text.split(sep)]; [cur] holds the piece being read, reversed. *)
Fixpoint split_chars (sep : ascii) (cur : list ascii) (l : list ascii) : list string :=
  match l with
  | [] => [PyStr.of_chars (rev cur)]
  | c :: t =>
      if Ascii.eqb c sep then PyStr.of_chars (rev cur) :: split_chars sep [] t
      else split_chars sep (c :: cur) t
  end.

Definition split (sep : ascii) (s : string) : list string :=
  split_chars sep [] (PyStr.chars s).

Fixpoint join (sep : string) (pieces : list string) : string :=
  match pieces with
  | [] => ""
  | [p] => p
  | p :: t => p +:+ sep +:+ join sep t
  end.

Definition write_line (cells : list string) : string :=
  join "," cells +:+ String newline "".

Definition write_csv (df : DataFrame string) : string :=
  String.concat "" (write_line <$> (columns df :: rows df)).

Definition parse_csv (text : string) : outcome (DataFrame string) :=
  match filter (fun l => l <> "") (split newline text) with
  | [] => Raise (LibraryError "No columns to parse from file")
  | header :: body =>
      Ok {| columns := split "," header; rows := split "," <$> body |}
  end.

(** A workbook is told from plain text by the two bytes every xlsx file
    starts with. *)
Definition write_excel (df : DataFrame string) : string := "PK" +:+ write_csv df.

Definition parse_excel (text : string) : outcome (DataFrame string) :=
  match text with
  | String "P" (String "K" rest) => parse_csv rest
  | _ => Raise (ValueError "Excel file format cannot be determined")
  end.

(** Text cells are written to JSON as they are, and read back as text. *)
#[global] Instance text_pandas : Pandas string := {|
  nan := "";
  read_csv := parse_csv;
  read_excel := parse_excel;
  to_csv := write_csv;
  to_excel := write_excel;
  json_cell := fun cell => cell;
  json_infer := fun df => df
|}.

End TextCodec.

(** ** Sample worlds *)
Module Sample.
Import TextCodec.

Definition nl : string := String newline "".

(** A process started against a serving MinIO without buckets. *)
Definition unloaded : World string := mkWorld None (Serving ∅) [] 1 ∅ 0.
Definition booted : World string := snd (load_minio_service unloaded).

(** A process started while MinIO refuses connections. *)
Definition refused : exn := LibraryError "Connection refused".
Definition unloaded_blind : World string := mkWorld None (Failing refused) [] 1 ∅ 0.
Definition booted_blind : World string := snd (load_minio_service unloaded_blind).

Definition file_A : UploadFile :=
  mkUploadFile "a.csv" ("id,x" +:+ nl +:+ "1,a" +:+ nl +:+ "2,b" +:+ nl) "text/csv".
Definition file_B : UploadFile :=
  mkUploadFile "b.csv" ("id,y" +:+ nl +:+ "1,p" +:+ nl +:+ "3,q" +:+ nl) "text/csv".
(** Shares no key with [file_A]. *)
Definition file_C : UploadFile :=
  mkUploadFile "c.csv" ("id,y" +:+ nl +:+ "7,p" +:+ nl) "text/csv".

Definition after (A : Type) (m : Handler (World string) A) (w : World string) : World string :=
  snd (m w).
Arguments after {A} m w.

(** [file_A], [file_B] and [file_C] registered, in this order. *)
Definition stocked : World string :=
  after (upload_file file_C) (after (upload_file file_B) (after (upload_file file_A) booted)).

Definition key1 : string := "3f2b8c1e-6d0a-4b7e-9b1c-5a2d7e8f9a10".

(** [stocked] after a merge of files 1 and 2 on "id". *)
Definition staged : World string :=
  after (merge_files_temporarily key1 1 2 "id") stocked.

(** [stocked] after a merge of files 1 and 3 on "id": no key is shared. *)
Definition staged_empty : World string :=
  after (merge_files_temporarily key1 1 3 "id") stocked.

(** The decoded sample files and what the pipeline makes of them. *)
Definition df_A : DataFrame string :=
  {| columns := ["id"; "x"]; rows := [["1"; "a"]; ["2"; "b"]] |}.
Definition df_B : DataFrame string :=
  {| columns := ["id"; "y"]; rows := [["1"; "p"]; ["3"; "q"]] |}.
Definition df_C : DataFrame string :=
  {| columns := ["id"; "y"]; rows := [["7"; "p"]] |}.
Definition df_AB : DataFrame string :=
  {| columns := ["id"; "x"; "y"]; rows := [["1"; "a"; "p"]] |}.
Definition df_twice : DataFrame string :=
  {| columns := ["id"; "x"]; rows := [["1"; "a"]; ["1"; "b"]] |}.

Definition meta_A : FileMetadata := mkFileMetadata 1 "a.csv" "csv".
Definition meta_B : FileMetadata := mkFileMetadata 2 "b.csv" "csv".
Definition meta_C : FileMetadata := mkFileMetadata 3 "c.csv" "csv".

Definition payload_AB : list (record string) := [[("id", "1"); ("x", "a"); ("y", "p")]].

Ltac run := vm_compute; reflexivity.

Ltac not_listed :=
  let Hin := fresh "Hin" in
  intros Hin;
  repeat (apply elem_of_cons in Hin as [Hin|Hin]; [discriminate|]);
  by apply elem_of_nil in Hin.

Ltac accepts :=
  eexists _, _, _; split_and!; run.

End Sample.

(** ** Notions the statements below use *)


(** No two rows of [files] carry the same [filename]. *)
Definition unique_filenames {value} (w : World value) : Prop :=
  NoDup (filename <$> files w).

(** The global holds a service, the server answers and the bucket is there:
    a [put_object] will go through. *)
Definition store_accepts {value} (w : World value) : Prop :=
  exists svc bs objs,
    minio_service w = Some svc /\ minio w = Serving bs /\ bs !! bucket_name svc = Some objs.

(** The cache holds nothing readable under [key]: the key was never set, or
    its entry has expired. *)
Definition never_issued {value} (key : string) (w : World value) : Prop :=
  cache w !! key = None.

Definition expired {value} (key : string) (w : World value) : Prop :=
  exists payload ttl_ts, cache w !! key = Some (payload, ttl_ts) /\ ttl_ts < now w.

(** ** Relations between the world before and after a handler *)

Section StepRelations.
Context {value : Type}.

(** [m] moves every world to a world related to it by [R], whatever it
    answers. *)
Definition steps (R : World value -> World value -> Prop) {A}
    (m : Handler (World value) A) : Prop :=
  forall w, R w (snd (m w)).

(** The [files] table is the same. *)
Definition same_files (w w' : World value) : Prop :=
  files w' = files w /\ next_id w' = next_id w.

(** The result cache and the clock are the same. *)
Definition same_cache (w w' : World value) : Prop :=
  cache w' = cache w /\ now w' = now w.

(** Distinct file names stay distinct. *)
Definition keeps_unique (w w' : World value) : Prop :=
  unique_filenames w -> unique_filenames w'.

End StepRelations.

Ltac unfold_handler :=
  unfold mbind, mret, Handler_bind, Handler_ret, bind, ret, raise, lift,
    try_except, modify in *.

(** ** Further notions: the catalog, the bucket and the answers of a handler *)

(** Every row of [files] carries one of the three format tags the handlers
    let through. *)
Definition known_formats {value} (w : World value) : Prop :=
  Forall (fun r => format r ∈ ["csv"; "xlsx"; "xls"]) (files w).

(** The primary key: identities are distinct and below the next value of the
    sequence. *)
Definition ids_fresh {value} (w : World value) : Prop :=
  Forall (fun r => id r < next_id w) (files w) /\ NoDup (id <$> files w).

(** [minio_service.fetch_file(name)] on the module global. *)
Definition fetch_blob {value} (name : string) : Handler (World value) string :=
  on_minio_service "fetch_file" (fun svc => MinioService_fetch_file svc name).

(** [minio_service.upload_file(name, bytes, ctype)] on the module global. *)
Definition store_blob {value} (name bytes ctype : string) : Handler (World value) bool :=
  on_minio_service "upload_file" (fun svc => MinioService_upload_file svc name bytes ctype).

(** Nothing but the result cache differs between [w] and [w']. *)
Definition cache_only {value} (w w' : World value) : Prop :=
  minio_service w' = minio_service w /\ minio w' = minio w /\
  files w' = files w /\ next_id w' = next_id w /\ now w' = now w.

(** The [except] clause of [get_file_dataframe]: a failure of the reader
    becomes a 400 quoting it. *)
Definition reported_400 {A} (attempt : outcome A) : outcome A :=
  match attempt with
  | Ok a => Ok a
  | Raise e => Raise (HTTPException 400 ("Error reading file into DataFrame: " +:+ exn_str e))
  end.

(** The rows [GET /files] answers.  The query has no ORDER BY: the rows are
    taken as a collection, whatever order the database returns them in. *)
Definition listed {value} (w : World value) : list FileMetadata :=
  match fst (view_stored_files w) with
  | Ok rows => rows
  | Raise _ => []
  end.

(** How the listing moves over a handler that answered [r]: it gains exactly
    the answered row, or holds the same rows as before. *)
Definition listing_moves {value} (w w' : World value) (r : outcome FileMetadata) : Prop :=
  match r with
  | Ok row => listed w' ≡ₚ row :: listed w
  | Raise _ => listed w' ≡ₚ listed w
  end.

(** The HTTP errors [merge_files_temporarily] raises itself. *)
Inductive merge_failure (common_column : string) : Z -> string -> Prop :=
| merge_ids_missing :
    merge_failure common_column 404 "One or both file IDs not found."
| merge_unreadable (cause : string) :
    merge_failure common_column 500 ("Error fetching/reading files: " +:+ cause)
| merge_column_missing :
    merge_failure common_column 400 ("Common column '" +:+ common_column +:+ "' not found.").

(** ** Further sample worlds *)
Module MoreSample.
Import TextCodec Sample.

(** [stocked] while MinIO refuses connections. *)
Definition outage : World string :=
  set_minio (Failing (ConnectionError "Connection refused")) stocked.

(** [stocked] with the blob of a.csv removed from every bucket: the record of
    file 1 is an orphan. *)
Definition orphaned : World string :=
  match minio stocked with
  | Serving bs => set_minio (Serving (delete "a.csv" <$> bs)) stocked
  | Failing _ => stocked
  end.

Definition file_A_again : UploadFile := mkUploadFile "a.csv" "other bytes" "text/csv".
Definition file_notes : UploadFile := mkUploadFile "notes.txt" "hello" "text/plain".

(** The service bound by a load, and the only bucket of [booted]. *)
Definition the_service : MinioService := mkMinioService "data-files".
Definition empty_store : gmap string (gmap string object) := {[ "data-files" := ∅ ]}.

Definition file_report : UploadFile := mkUploadFile "Report.XLSX" "PK" "application/zip".


End MoreSample.

(** ** File-name extensions *)

Lemma rfind_from_range (c : ascii) (l : list ascii) (i : Z) :
  PyStr.rfind_from c l i = -1 \/
  (i <= PyStr.rfind_from c l i < i + Z.of_nat (length l)).
Proof.
  revert i. induction l as [|x t IH]; intros i; simpl; [by left|].
  destruct (IH (i + 1)) as [E|R].
  - rewrite E. simpl. destruct (Ascii.eqb x c); [right; lia | by left].
  - destruct (Z.leb_spec 0 (PyStr.rfind_from c t (i + 1))); [right; lia|].
    destruct (Ascii.eqb x c); [right; lia | by left].
Qed.

Lemma rfind_from_absent (c : ascii) (l : list ascii) (i : Z) :
  0 <= i -> PyStr.rfind_from c l i = -1 -> c ∉ l.
Proof.
  revert i. induction l as [|x t IH]; intros i Hi; simpl; [intros _; apply not_elem_of_nil|].
  destruct (rfind_from_range c t (i + 1)) as [E|R].
  - rewrite E. simpl. destruct (Ascii.eqb_spec x c) as [->|Hne]; [lia|].
    intros _ [->|Hin]%elem_of_cons; [done|].
    eapply (IH (i + 1)); [lia | exact E | exact Hin].
  - destruct (Z.leb_spec 0 (PyStr.rfind_from c t (i + 1))); lia.
Qed.

Lemma rfind_from_split (c : ascii) (l : list ascii) (i : Z) :
  0 <= i -> 0 <= PyStr.rfind_from c l i ->
  exists pre post,
    l = (pre ++ c :: post)%list /\
    Z.of_nat (length pre) = PyStr.rfind_from c l i - i /\ c ∉ post.
Proof.
  revert i. induction l as [|x t IH]; intros i Hi; simpl; [lia|].
  destruct (Z.leb_spec 0 (PyStr.rfind_from c t (i + 1))) as [Hl|Hl].
  - intros _. destruct (IH (i + 1)) as (pre & post & -> & Hlen & Hpost); [lia|done|].
    exists (x :: pre), post. split_and!; [done| |done].
    rewrite length_cons. lia.
  - destruct (Ascii.eqb_spec x c) as [->|Hne]; [|lia].
    intros _. exists [], t. split_and!; [done|simpl; lia|].
    apply (rfind_from_absent c t (i + 1)); [lia|].
    destruct (rfind_from_range c t (i + 1)); lia.
Qed.

(** The skipping loop of [splitext] never runs out of steps: with at least
    as many steps as indices left before [dotIndex], one more step changes
    nothing. *)
Lemma has_stem_enough (steps : nat) (p : list ascii) (filenameIndex dotIndex : Z) :
  dotIndex - filenameIndex <= Z.of_nat steps ->
  PyStr.has_stem (S steps) p filenameIndex dotIndex
  = PyStr.has_stem steps p filenameIndex dotIndex.
Proof.
  revert filenameIndex. induction steps as [|n IH]; intros filenameIndex Hfuel.
  - simpl. destruct (Z.ltb_spec filenameIndex dotIndex); [lia|done].
  - change (PyStr.has_stem (S (S n)) p filenameIndex dotIndex)
      with (if filenameIndex <? dotIndex then
              match p !! Z.to_nat filenameIndex with
              | Some c =>
                  if Ascii.eqb c "." then PyStr.has_stem (S n) p (filenameIndex + 1) dotIndex
                  else true
              | None => true
              end
            else false).
    rewrite IH by lia. reflexivity.
Qed.

Lemma of_chars_chars (s : string) : PyStr.of_chars (PyStr.chars s) = s.
Proof. apply string_of_list_ascii_of_string. Qed.

Lemma chars_of_chars (l : list ascii) : PyStr.chars (PyStr.of_chars l) = l.
Proof. apply list_ascii_of_string_of_list_ascii. Qed.

(** The extension [splitext] returns is empty, or a dot followed by
    characters none of which is a dot. *)
Lemma splitext_extension (name : string) :
  snd (PyStr.splitext name) = "" \/
  exists post, snd (PyStr.splitext name) = String "." (PyStr.of_chars post) /\
               "."%char ∉ post.
Proof.
  unfold PyStr.splitext.
  set (p := PyStr.chars name).
  destruct (Z.ltb_spec (PyStr.rfind "/" p) (PyStr.rfind "." p)) as [Hlt|Hge];
    [|by left].
  simpl. destruct (PyStr.has_stem _ _ _ _); [|by left].
  right. simpl.
  assert (0 <= PyStr.rfind "." p) as Hdot.
  { unfold PyStr.rfind in *.
    destruct (rfind_from_range "/" p 0); destruct (rfind_from_range "." p 0); lia. }
  destruct (rfind_from_split "." p 0) as (pre & post & Hp & Hlen & Hpost); [lia|done|].
  exists post. split; [|done].
  unfold PyStr.slice_from, PyStr.rfind.
  replace (Z.to_nat (PyStr.rfind_from "." p 0)) with (length pre) by lia.
  rewrite Hp, drop_app_length. reflexivity.
Qed.

Lemma lower_char_dot (c : ascii) : PyStr.lower_char c = "."%char <-> c = "."%char.
Proof.
  destruct c as [[] [] [] [] [] [] [] []]; vm_compute; split; congruence.
Qed.

Lemma lstrip_dots_id (l : list ascii) : "."%char ∉ l -> PyStr.lstrip_dots l = l.
Proof.
  destruct l as [|c t]; [done|]. intros Hn. simpl.
  destruct (Ascii.eqb_spec c "."%char) as [->|]; [|done].
  exfalso. apply Hn. left.
Qed.

Lemma strip_dots_extension (post : list ascii) :
  "."%char ∉ post ->
  PyStr.strip_dots (PyStr.lower (String "." (PyStr.of_chars post)))
  = PyStr.lower (PyStr.of_chars post).
Proof.
  intros Hpost. unfold PyStr.strip_dots, PyStr.lower.
  rewrite !chars_of_chars. simpl PyStr.chars. rewrite chars_of_chars. simpl map.
  change (PyStr.lower_char ".") with "."%char.
  assert ("."%char ∉ map PyStr.lower_char post) as Hlow.
  { intros (c & Hc & Hin)%list_elem_of_In%in_map_iff.
    apply (proj1 (lower_char_dot c)) in Hc. subst c.
    by apply Hpost, list_elem_of_In. }
  simpl PyStr.lstrip_dots. rewrite (lstrip_dots_id _ Hlow).
  rewrite lstrip_dots_id, rev_involutive; [done|].
  intros Hin%list_elem_of_In%in_rev. by apply Hlow, list_elem_of_In.
Qed.

(** The tag is the lowercased extension without its leading dot. *)
Lemma extension_tag_spec (name : string) :
  (snd (PyStr.splitext name) = "" /\ extension_tag name = "") \/
  PyStr.lower (snd (PyStr.splitext name)) = String "." (extension_tag name).
Proof.
  unfold extension_tag.
  destruct (splitext_extension name) as [E|(post & E & Hpost)]; rewrite E.
  - left. split; reflexivity.
  - right. rewrite (strip_dots_extension _ Hpost).
    unfold PyStr.lower at 1. simpl PyStr.chars. simpl map.
    change (PyStr.lower_char ".") with "."%char. reflexivity.
Qed.

(** ** The inner join *)

Section FrameFacts.
Context {value : Type} `{Pandas value}.

Lemma column_index_lookup (c : string) (cols : list string) (i : nat) :
  column_index c cols = Some i -> cols !! i = Some c.
Proof.
  revert i. induction cols as [|x t IH]; intros i; simpl; [done|].
  destruct (decide (x = c)) as [->|Hne].
  - by intros [= <-].
  - destruct (column_index c t) as [j|] eqn:E; simpl; [|done].
    intros [= <-]. simpl. by apply IH.
Qed.



(** A row is in the join exactly when it pairs a left row with a right row
    of equal key. *)
Lemma elem_of_inner_join_rows (i1 i2 : nat) (rows1 rows2 : list (list value))
    (r : list value) :
  r ∈ inner_join_rows i1 i2 rows1 rows2 <->
  exists r1 r2, r1 ∈ rows1 /\ r2 ∈ rows2 /\ r1 !! i1 = r2 !! i2 /\
                r = (r1 ++ delete i2 r2)%list.
Proof.
  unfold inner_join_rows. rewrite list_elem_of_bind. split.
  - intros (r1 & Hr & Hr1). apply list_elem_of_fmap in Hr as (r2 & -> & Hr2).
    apply list_elem_of_filter in Hr2 as [Hk Hr2]. by exists r1, r2.
  - intros (r1 & r2 & Hr1 & Hr2 & Hk & ->). exists r1. split; [|done].
    apply list_elem_of_fmap. exists r2. split; [done|].
    by apply list_elem_of_filter.
Qed.

Lemma inner_join_rows_cons (i1 i2 : nat) (r1 : list value)
    (rows1 rows2 : list (list value)) :
  inner_join_rows i1 i2 (r1 :: rows1) rows2 =
  (((fun r2 => (r1 ++ delete i2 r2)%list)
      <$> filter (fun r2 => r1 !! i1 = r2 !! i2) rows2)
   ++ inner_join_rows i1 i2 rows1 rows2)%list.
Proof. reflexivity. Qed.






End FrameFacts.

(** ** Rectangular tables *)

Section RectangularFacts.
Context {value : Type} `{Pandas value}.

Lemma pd_merge_rectangular (df1 df2 joined : DataFrame value) (on : string) :
  rectangular df1 -> rectangular df2 -> pd_merge df1 df2 on = Ok joined ->
  rectangular joined.
Proof.
  unfold pd_merge, rectangular. intros H1 H2.
  destruct (column_index on (columns df1)) as [i1|] eqn:E1; [|done].
  destruct (column_index on (columns df2)) as [i2|] eqn:E2; [|done].
  intros [= <-]. simpl. apply Forall_forall. intros r Hr.
  apply elem_of_inner_join_rows in Hr as (r1 & r2 & Hr1 & Hr2 & _ & ->).
  rewrite Forall_forall in H1, H2.
  rewrite !length_app, !length_fmap, (H1 r1 Hr1). f_equal.
  apply column_index_lookup, lookup_lt_Some in E2.
  rewrite !length_delete; [by rewrite (H2 r2 Hr2)| |];
    apply lookup_lt_is_Some; [done|by rewrite (H2 r2 Hr2)].
Qed.

End RectangularFacts.

(** ** Reasoning about handlers *)

Section HandlerFacts.
Context {value : Type} `{Pandas value}.

Abbreviation World := (World value).

Section Steps.
Context (R : World -> World -> Prop) `{!PreOrder R}.

Lemma steps_ret {A} (a : A) : steps R (mret a : Handler World A).
Proof. intros w. simpl. reflexivity. Qed.



Lemma steps_bind {A B} (m : Handler World A) (k : A -> Handler World B) :
  steps R m -> (forall a, steps R (k a)) -> steps R (m ≫= k).
Proof.
  intros Hm Hk w. unfold_handler. specialize (Hm w).
  destruct (m w) as [[a|e] w']; simpl in *; [|done].
  etrans; [exact Hm|apply Hk].
Qed.


Lemma steps_on_minio_service {A} (method : string)
    (call : MinioService -> Handler World A) :
  (forall svc, steps R (call svc)) -> steps R (on_minio_service method call).
Proof.
  intros Hc w. unfold on_minio_service.
  destruct (minio_service w); [apply Hc|simpl; reflexivity].
Qed.
End Steps.

#[global] Instance same_files_preorder : PreOrder (@same_files value).
Proof.
  split; [by intros w|]. intros a b c [? ?] [? ?]. split; congruence.
Qed.

Lemma put_object_same_files (b key bytes ctype : string) :
  steps (@same_files value) (put_object b key bytes ctype).
Proof. intros w. unfold put_object. repeat case_match; by split. Qed.

Lemma get_object_same_world (b key : string) (w : World) :
  snd (get_object b key w) = w.
Proof. unfold get_object. by repeat case_match. Qed.

Lemma store_upload_same_files (name bytes ctype : string) :
  steps (@same_files value)
    (on_minio_service "upload_file"
       (fun svc => MinioService_upload_file svc name bytes ctype)).
Proof.
  apply steps_on_minio_service; [apply _|]. intros svc.
  apply steps_bind; [apply _|apply put_object_same_files|].
  intros _. apply steps_ret, _.
Qed.

(** What a store write does when it goes through. *)
Lemma store_upload_accepted (name bytes ctype : string) (w : World)
    (svc : MinioService) (bs : gmap string (gmap string object))
    (objs : gmap string object) :
  minio_service w = Some svc -> minio w = Serving bs ->
  bs !! bucket_name svc = Some objs ->
  on_minio_service "upload_file"
    (fun svc => MinioService_upload_file svc name bytes ctype) w
  = (Ok true,
     set_minio (Serving (<[bucket_name svc := <[name := mkObject bytes ctype]> objs]> bs)) w).
Proof.
  intros Hs Hm Hb. unfold on_minio_service, MinioService_upload_file, put_object.
  unfold_handler. by rewrite Hs, Hm, Hb.
Qed.

#[global] Instance keeps_unique_preorder : PreOrder (@keeps_unique value).
Proof.
  split; [intros w Hu; exact Hu|].
  intros a b c Hab Hbc Ha. apply Hbc, Hab, Ha.
Qed.



Lemma add_commit_refresh_duplicate (name fmt : string) (w : World) :
  name ∈ filename <$> files w ->
  add_commit_refresh name fmt w
  = (Raise (IntegrityError "duplicate key value violates unique constraint"), w).
Proof. intros Hin. unfold add_commit_refresh. by rewrite bool_decide_eq_true_2. Qed.


Lemma fetch_and_read_same_world (meta1 meta2 : FileMetadata) (w : World) :
  snd (fetch_and_read meta1 meta2 w) = w.
Proof.
  unfold fetch_and_read, on_minio_service, MinioService_fetch_file.
  unfold_handler.
  destruct (minio_service w) as [svc|] eqn:Hs; [|done].
  pose proof (get_object_same_world (bucket_name svc) (filename meta1) w) as E1.
  destruct (get_object (bucket_name svc) (filename meta1) w) as [[d1|e1] w1];
    simpl in E1; subst w1; [|done].
  rewrite Hs.
  pose proof (get_object_same_world (bucket_name svc) (filename meta2) w) as E2.
  destruct (get_object (bucket_name svc) (filename meta2) w) as [[d2|e2] w2];
    simpl in E2; subst w2; [|done].
  destruct (get_file_dataframe d1 (format meta1)); [|done].
  by destruct (get_file_dataframe d2 (format meta2)).
Qed.

End HandlerFacts.

(** ** The handlers, step by step *)

Section Unfoldings.
Context {value : Type} `{Pandas value}.

Abbreviation World := (World value).

(** A store write either raises and leaves the world as it was, or it went
    through a service bound to an existing bucket of a serving MinIO. *)
Lemma store_upload_cases (name bytes ctype : string) (w : World) :
  (exists e,
      on_minio_service "upload_file"
        (fun svc => MinioService_upload_file svc name bytes ctype) w = (Raise e, w)) \/
  (exists svc bs objs,
      minio_service w = Some svc /\ minio w = Serving bs /\
      bs !! bucket_name svc = Some objs /\
      on_minio_service "upload_file"
        (fun svc => MinioService_upload_file svc name bytes ctype) w
      = (Ok true,
         set_minio (Serving (<[bucket_name svc := <[name := mkObject bytes ctype]> objs]> bs)) w)).
Proof.
  unfold on_minio_service, MinioService_upload_file, put_object. unfold_handler.
  destruct (minio_service w) as [svc|] eqn:Hs; [|left; by eexists].
  destruct (minio w) as [e|bs] eqn:Hm; [left; by eexists|].
  destruct (bs !! bucket_name svc) as [objs|] eqn:Hb; [|left; by eexists].
  right. by exists svc, bs, objs.
Qed.

Lemma merge_files_temporarily_unfold (uuid4 : string) (file_id_1 file_id_2 : Z)
    (common_column : string) (w : World) :
  merge_files_temporarily uuid4 file_id_1 file_id_2 common_column w =
  match List.find (fun r => bool_decide (id r = file_id_1)) (files w),
        List.find (fun r => bool_decide (id r = file_id_2)) (files w) with
  | Some meta1, Some meta2 =>
      match fst (fetch_and_read meta1 meta2 w) with
      | Raise e => (Raise e, w)
      | Ok (df1, df2) =>
          if negb (has_column common_column df1) || negb (has_column common_column df2)
          then (Raise (HTTPException 400
                         ("Common column '" +:+ common_column +:+ "' not found.")), w)
          else
            match pd_merge df1 df2 common_column with
            | Raise e => (Raise e, w)
            | Ok merged_df =>
                match to_json merged_df with
                | Raise e => (Raise e, w)
                | Ok merged_json =>
                    (Ok (mkMergedPreviewResponse uuid4 (to_dict (head merged_df))
                           ("Merged dataset cached in memory with key: " +:+ uuid4)),
                     set_cache
                       (<[uuid4 := (merged_json, now w + hours_in_seconds 1)]> (cache w)) w)
                end
            end
      end
  | _, _ => (Raise (HTTPException 404 "One or both file IDs not found."), w)
  end.
Proof.
  unfold merge_files_temporarily, query_first. unfold_handler.
  destruct (List.find (fun r => bool_decide (id r = file_id_1)) (files w)) as [meta1|];
    [|by destruct (List.find (fun r => bool_decide (id r = file_id_2)) (files w))].
  destruct (List.find (fun r => bool_decide (id r = file_id_2)) (files w)) as [meta2|];
    [|done].
  pose proof (fetch_and_read_same_world meta1 meta2 w) as Hw.
  destruct (fetch_and_read meta1 meta2 w) as [[[df1 df2]|e] w1]; simpl in Hw; subst w1;
    [|done]. simpl.
  destruct (negb (has_column common_column df1) || negb (has_column common_column df2));
    [done|].
  destruct (pd_merge df1 df2 common_column) as [merged_df|e]; [|done].
  by destruct (to_json merged_df).
Qed.

(** The payload the cache hands out under [key], if any. *)
Lemma cache_get_unfold (key : string) (w : World) :
  cache_get key w =
  (Ok (match cache w !! key with
       | Some (payload, ttl_ts) => if ttl_ts <? now w then None else Some payload
       | None => None
       end), w).
Proof. reflexivity. Qed.

Lemma save_merged_dataset_unfold (key new_filename : string) (w : World) :
  save_merged_dataset key new_filename w =
  match fst (cache_get key w) with
  | Ok (Some merged_json) =>
      let file_format := extension_tag new_filename in
      match encode_as file_format (read_json merged_json) with
      | Raise e => (Raise e, w)
      | Ok (bytes, ctype) =>
          match on_minio_service "upload_file"
                  (fun svc => MinioService_upload_file svc new_filename bytes ctype) w with
          | (Raise e, w1) =>
              (Raise (HTTPException 500
                        ("Failed to upload merged file to MinIO: " +:+ exn_str e)), w1)
          | (Ok _, w1) =>
              match add_commit_refresh new_filename file_format w1 with
              | (Raise e, w2) => (Raise e, w2)
              | (Ok db_file, w2) => (Ok db_file, set_cache (delete key (cache w2)) w2)
              end
          end
      end
  | _ => (Raise (HTTPException 404 "Merged dataset not found or has expired in cache."), w)
  end.
Proof.
  unfold save_merged_dataset, cache_delete. rewrite cache_get_unfold. unfold_handler.
  simpl.
  destruct (match cache w !! key with Some _ => _ | None => _ end) as [merged_json|];
    [|done].
  destruct (encode_as _ _) as [[bytes ctype]|e]; [|done].
  destruct (on_minio_service _ _ w) as [[b|e] w1]; [|done].
  by destruct (add_commit_refresh _ _ w1) as [[row|e] w2].
Qed.

End Unfoldings.

(** ** The merge handler *)

Section MergeClaims.
Context {value : Type} `{Pandas value}.

Abbreviation World := (World value).




(** C8: when both files are found, fetched and decoded, and the join column
    is missing from either decoded table, the merge fails with status 400
    and a detail naming the column; the world, and with it the result
    cache, is left exactly as it was. *)
Theorem C8_missing_join_column (w : World) (uuid4 : string)
    (file_id_1 file_id_2 : Z) (common_column : string)
    (meta1 meta2 : FileMetadata) (df1 df2 : DataFrame value) :
  fst (query_first file_id_1 w) = Ok (Some meta1) ->
  fst (query_first file_id_2 w) = Ok (Some meta2) ->
  fst (fetch_and_read meta1 meta2 w) = Ok (df1, df2) ->
  has_column common_column df1 = false \/ has_column common_column df2 = false ->
  merge_files_temporarily uuid4 file_id_1 file_id_2 common_column w
  = (Raise (HTTPException 400 ("Common column '" +:+ common_column +:+ "' not found.")),
     w).
Proof.
  unfold query_first. simpl. intros [= Hq1] [= Hq2] Hread Hmissing.
  rewrite merge_files_temporarily_unfold, Hq1, Hq2, Hread.
  by destruct Hmissing as [-> | ->]; [|rewrite orb_true_r].
Qed.


End MergeClaims.

(** ** The commit handler *)

Section CommitClaims.
Context {value : Type} `{Pandas value}.

Abbreviation World := (World value).

#[global] Instance same_cache_preorder : PreOrder (@same_cache value).
Proof.
  split; [by intros w|]. intros a b c [? ?] [? ?]. split; congruence.
Qed.

Lemma store_upload_same_cache (name bytes ctype : string) :
  steps (@same_cache value)
    (on_minio_service "upload_file"
       (fun svc => MinioService_upload_file svc name bytes ctype)).
Proof.
  intros w. destruct (store_upload_cases name bytes ctype w)
    as [[e ->]|(svc & bs & objs & _ & _ & _ & ->)]; by split.
Qed.

Lemma add_commit_refresh_same_cache (name fmt : string) :
  steps (@same_cache value) (add_commit_refresh name fmt).
Proof. intros w. unfold add_commit_refresh. by case_bool_decide. Qed.

Lemma cache_get_absent (key : string) (w : World) :
  never_issued key w \/ expired key w -> fst (cache_get key w) = Ok None.
Proof.
  unfold never_issued, expired. rewrite cache_get_unfold. simpl.
  intros [-> | (payload & ttl_ts & -> & Hlt)]; [done|].
  by destruct (Z.ltb_spec ttl_ts (now w)); [|lia].
Qed.

(** The answers of the other handlers do not depend on the cache or on the
    clock. *)
Lemma store_upload_blind (name bytes ctype : string)
    (c : gmap string (list (record value) * Z)) (dt : Z) (w : World) :
  fst (on_minio_service "upload_file"
         (fun svc => MinioService_upload_file svc name bytes ctype)
         (set_cache c (elapse dt w)))
  = fst (on_minio_service "upload_file"
           (fun svc => MinioService_upload_file svc name bytes ctype) w)
  /\ files (snd (on_minio_service "upload_file"
              (fun svc => MinioService_upload_file svc name bytes ctype)
              (set_cache c (elapse dt w))))
     = files (snd (on_minio_service "upload_file"
              (fun svc => MinioService_upload_file svc name bytes ctype) w))
  /\ next_id (snd (on_minio_service "upload_file"
              (fun svc => MinioService_upload_file svc name bytes ctype)
              (set_cache c (elapse dt w))))
     = next_id (snd (on_minio_service "upload_file"
              (fun svc => MinioService_upload_file svc name bytes ctype) w)).
Proof.
  unfold on_minio_service, MinioService_upload_file, put_object. unfold_handler. simpl.
  destruct (minio_service w) as [svc|]; [|done].
  destruct (minio w) as [e|bs]; [done|].
  by destruct (bs !! bucket_name svc).
Qed.

Lemma upload_file_blind (file : UploadFile)
    (c : gmap string (list (record value) * Z)) (dt : Z) (w : World) :
  fst (upload_file file (set_cache c (elapse dt w))) = fst (upload_file file w).
Proof.
  unfold upload_file. case_match; [done|].
  unfold_handler.
  destruct (store_upload_blind (upload_filename file) (upload_content file)
              (upload_content_type file) c dt w) as (Hfst & Hfiles & Hnext).
  destruct (on_minio_service _ _ (set_cache c (elapse dt w))) as [r1 w1].
  destruct (on_minio_service _ _ w) as [r2 w2]. simpl in *. subst r2.
  destruct r1 as [b|e]; [|by destruct (is_ConnectionError e)].
  unfold add_commit_refresh. rewrite Hfiles, Hnext.
  by destruct (bool_decide (upload_filename file ∈ filename <$> files w2)).
Qed.

Lemma fetch_and_read_blind (meta1 meta2 : FileMetadata)
    (c : gmap string (list (record value) * Z)) (dt : Z) (w : World) :
  fst (fetch_and_read meta1 meta2 (set_cache c (elapse dt w)))
  = fst (fetch_and_read meta1 meta2 w).
Proof.
  unfold fetch_and_read, on_minio_service, MinioService_fetch_file, get_object.
  unfold_handler. simpl.
  destruct (minio_service w) as [svc|] eqn:Hs; [|done].
  destruct (minio w) as [e|bs] eqn:Hm; [done|].
  destruct (bs !! bucket_name svc) as [objs|] eqn:Hb; [|done].
  destruct (objs !! filename meta1); [|done]. simpl. rewrite Hs, Hm, Hb.
  destruct (objs !! filename meta2); [|done].
  destruct (get_file_dataframe _ (format meta1)); [|done].
  by destruct (get_file_dataframe _ (format meta2)).
Qed.

Lemma merge_files_temporarily_blind (uuid4 : string) (file_id_1 file_id_2 : Z)
    (common_column : string)
    (c : gmap string (list (record value) * Z)) (dt : Z) (w : World) :
  fst (merge_files_temporarily uuid4 file_id_1 file_id_2 common_column
         (set_cache c (elapse dt w)))
  = fst (merge_files_temporarily uuid4 file_id_1 file_id_2 common_column w).
Proof.
  rewrite !merge_files_temporarily_unfold. simpl files.
  destruct (List.find (fun r => bool_decide (id r = file_id_1)) (files w)) as [meta1|];
    [|done].
  destruct (List.find (fun r => bool_decide (id r = file_id_2)) (files w)) as [meta2|];
    [|done].
  rewrite fetch_and_read_blind.
  destruct (fst (fetch_and_read meta1 meta2 w)) as [[df1 df2]|e]; [|done].
  by repeat case_match.
Qed.

(** C7: a commit under a key that was never set and a commit under a key
    whose entry has expired end alike, with status 404 and the same detail,
    and leave the world as it was.  Uploading, listing and merging answer
    the same whatever the cache holds and whatever the clock shows, so the
    404 of a commit is the only place where expiry shows. *)
Theorem C7_absent_or_expired_is_404 (w : World) (key new_filename : string) :
  never_issued key w \/ expired key w ->
  save_merged_dataset key new_filename w
  = (Raise (HTTPException 404 "Merged dataset not found or has expired in cache."), w)
  /\ (forall (c : gmap string (list (record value) * Z)) (dt : Z),
        (forall file,
            fst (upload_file file (set_cache c (elapse dt w)))
            = fst (upload_file file w)) /\
        fst (view_stored_files (set_cache c (elapse dt w))) = fst (view_stored_files w) /\
        (forall uuid4 file_id_1 file_id_2 common_column,
            fst (merge_files_temporarily uuid4 file_id_1 file_id_2 common_column
                   (set_cache c (elapse dt w)))
            = fst (merge_files_temporarily uuid4 file_id_1 file_id_2 common_column w))).
Proof.
  intros Habsent. split.
  - rewrite save_merged_dataset_unfold. by rewrite (cache_get_absent _ _ Habsent).
  - intros c dt. split_and!; [|done|].
    + intros file. apply upload_file_blind.
    + intros. apply merge_files_temporarily_blind.
Qed.

(** C1 (as amended): when the cached payload is found, the entry is deleted
    exactly when the commit returns the new record; a commit that fails -
    on the format check, on the store write or on the catalog insert -
    leaves the cache as it was. *)
Theorem C1_cache_entry_deleted_on_success_only (w w' : World)
    (key new_filename : string) (payload : list (record value))
    (r : outcome FileMetadata) :
  fst (cache_get key w) = Ok (Some payload) ->
  save_merged_dataset key new_filename w = (r, w') ->
  match r with
  | Ok _ => cache w' = delete key (cache w)
  | Raise _ => cache w' = cache w
  end.
Proof.
  intros Hget. rewrite save_merged_dataset_unfold, Hget. simpl.
  destruct (encode_as _ _) as [[bytes ctype]|e]; [|by intros [= <- <-]].
  destruct (store_upload_same_cache new_filename bytes ctype w) as [Hc1 _].
  destruct (on_minio_service _ _ w) as [[b|e] w1]; simpl in Hc1;
    [|by intros [= <- <-]].
  destruct (add_commit_refresh_same_cache new_filename (extension_tag new_filename) w1)
    as [Hc2 _].
  destruct (add_commit_refresh _ _ w1) as [[row|e] w2]; simpl in Hc2;
    intros [= <- <-]; simpl; congruence.
Qed.


End CommitClaims.

(** ** The upload handler and the catalog *)

Section UploadClaims.
Context {value : Type} `{Pandas value}.

Abbreviation World := (World value).

Lemma upload_file_unfold (file : UploadFile) (w : World) :
  upload_file file w =
  let name := upload_filename file in
  let file_format := extension_tag name in
  if negb (bool_decide (file_format ∈ ["csv"; "xlsx"]))
  then (Raise (HTTPException 400 "Invalid file format."), w)
  else
    match on_minio_service "upload_file"
            (fun svc => MinioService_upload_file svc name (upload_content file)
                          (upload_content_type file)) w with
    | (Raise e, w1) =>
        (Raise (if is_ConnectionError e
                then HTTPException 503 ("MinIO Service Unavailable: " +:+ exn_str e)
                else HTTPException 500 ("Failed to upload file to MinIO: " +:+ exn_str e)),
         w1)
    | (Ok _, w1) =>
        match add_commit_refresh name file_format w1 with
        | (Ok row, w2) => (Ok row, w2)
        | (Raise _, w2) =>
            (Raise (HTTPException 500 "Database error: Failed to store file metadata."),
             w2)
        end
    end.
Proof.
  unfold upload_file. simpl.
  destruct (negb (bool_decide (extension_tag (upload_filename file) ∈ ["csv"; "xlsx"])));
    [done|].
  unfold_handler.
  destruct (on_minio_service _ _ w) as [[b|e] w1]; [|by destruct (is_ConnectionError e)].
  by destruct (add_commit_refresh _ _ w1) as [[row|e] w2].
Qed.

(** What an upload that answered has done. *)
Lemma upload_file_ok (file : UploadFile) (w w1 : World) (rec : FileMetadata) :
  upload_file file w = (Ok rec, w1) ->
  extension_tag (upload_filename file) ∈ ["csv"; "xlsx"] /\
  (upload_filename file ∉ filename <$> files w) /\
  rec = mkFileMetadata (next_id w) (upload_filename file)
          (extension_tag (upload_filename file)) /\
  files w1 = (files w ++ [rec])%list.
Proof.
  rewrite upload_file_unfold. simpl.
  case_bool_decide as Htag; [|done]. simpl.
  destruct (store_upload_same_files (upload_filename file) (upload_content file)
              (upload_content_type file) w) as [Hf Hn].
  destruct (on_minio_service _ _ w) as [[b|e] w']; [|done]. simpl in Hf, Hn.
  unfold add_commit_refresh. rewrite Hf, Hn.
  case_bool_decide as Hin; [done|]. by intros [= <- <-].
Qed.




(** C4: when MinIO cannot be reached while the module is loaded, the
    failure to construct the service is swallowed - loading succeeds and
    binds the global to None - and an upload that then uses the global
    ends with status 500, the attribute error of None in its detail, not
    with the 503 that the handler reserves for a connection error. *)
Theorem C4_construction_failure_swallowed (w : World) (e : exn) (file : UploadFile) :
  minio w = Failing e ->
  extension_tag (upload_filename file) ∈ ["csv"; "xlsx"] ->
  fst (load_minio_service w) = Ok tt /\
  minio_service (snd (load_minio_service w)) = None /\
  forall w' : World,
    minio_service w' = None ->
    upload_file file w'
    = (Raise (HTTPException 500
                "Failed to upload file to MinIO: 'NoneType' object has no attribute 'upload_file'"),
       w').
Proof.
  intros Hm Htag.
  assert (load_minio_service w = (Ok tt, set_minio_service None w)) as ->.
  { unfold load_minio_service, MinioService_init, _ensure_bucket_exists, bucket_exists.
    unfold_handler. rewrite Hm. by destruct (is_S3Error e). }
  split_and!; [done|done|].
  intros w' Hnone. rewrite upload_file_unfold. simpl.
  rewrite bool_decide_eq_true_2 by done. simpl.
  unfold on_minio_service. by rewrite Hnone.
Qed.

Lemma extension_tag_of_lower (name tag : string) :
  PyStr.lower (snd (PyStr.splitext name)) = String "." tag -> extension_tag name = tag.
Proof.
  intros Hext. destruct (extension_tag_spec name) as [[E _]|E].
  - rewrite E in Hext. done.
  - congruence.
Qed.

Lemma extension_tag_listed (name : string) (tags : list string) :
  PyStr.lower (snd (PyStr.splitext name)) ∈ String "." <$> tags ->
  extension_tag name ∈ tags /\
  PyStr.lower (snd (PyStr.splitext name)) = String "." (extension_tag name).
Proof.
  intros (tag & Hext & Hin)%list_elem_of_fmap.
  rewrite (extension_tag_of_lower _ _ Hext). done.
Qed.

(** C10: the extension of a name counts in its lowercased form only.  An
    upload whose extension lowercases to .csv or .xlsx - data.CSV, say - is
    registered, given a working store and a fresh name, with the lowercased
    extension without its dot as format, and only such formats are ever
    registered by an upload; names whose extensions differ in case only pass
    or fail the format check alike.  A commit whose extension lowercases to
    .csv, .xlsx or .xls registers its file in the same way.  Decoding reads
    csv with the CSV reader and xlsx or xls with the Excel reader according
    to the lowercased tag, and refuses every other tag. *)
Theorem C10_extension_case_insensitive :
  (forall (w w1 : World) (file : UploadFile) (rec : FileMetadata),
      upload_file file w = (Ok rec, w1) ->
      format rec = PyStr.strip_dots (PyStr.lower (snd (PyStr.splitext (upload_filename file))))
      /\ format rec ∈ ["csv"; "xlsx"]
      /\ PyStr.lower (snd (PyStr.splitext (upload_filename file)))
         = String "." (format rec)) /\
  (forall (w : World) (file1 file2 : UploadFile),
      PyStr.lower (snd (PyStr.splitext (upload_filename file1)))
      = PyStr.lower (snd (PyStr.splitext (upload_filename file2))) ->
      fst (upload_file file1 w) = Raise (HTTPException 400 "Invalid file format.") <->
      fst (upload_file file2 w) = Raise (HTTPException 400 "Invalid file format.")) /\
  (forall (w : World) (file : UploadFile),
      PyStr.lower (snd (PyStr.splitext (upload_filename file))) ∈ [".csv"; ".xlsx"] ->
      store_accepts w -> upload_filename file ∉ filename <$> files w ->
      exists row,
        fst (upload_file file w) = Ok row /\
        row ∈ files (snd (upload_file file w)) /\
        filename row = upload_filename file /\
        String "." (format row) = PyStr.lower (snd (PyStr.splitext (upload_filename file)))) /\
  PyStr.lower (snd (PyStr.splitext "data.CSV")) = ".csv" /\
  (forall (w : World) (key new_filename : string) (payload : list (record value)),
      fst (cache_get key w) = Ok (Some payload) ->
      PyStr.lower (snd (PyStr.splitext new_filename)) ∈ [".csv"; ".xlsx"; ".xls"] ->
      store_accepts w -> new_filename ∉ filename <$> files w ->
      exists row,
        row ∈ files (snd (save_merged_dataset key new_filename w)) /\
        filename row = new_filename /\
        String "." (format row) = PyStr.lower (snd (PyStr.splitext new_filename))) /\
  (forall (w w1 : World) (key new_filename : string) (rec : FileMetadata),
      save_merged_dataset key new_filename w = (Ok rec, w1) ->
      format rec = PyStr.strip_dots (PyStr.lower (snd (PyStr.splitext new_filename)))) /\
  (forall (bytes file_format : string),
      get_file_dataframe bytes file_format
      = if decide (PyStr.lower file_format = "csv") then reported_400 (read_csv bytes)
        else if bool_decide (PyStr.lower file_format ∈ ["xlsx"; "xls"])
             then reported_400 (read_excel bytes)
             else Raise (HTTPException 400
                           "Error reading file into DataFrame: Unsupported file format.")).
Proof.
  split_and!.
  - intros w w1 file rec Hup.
    destruct (upload_file_ok _ _ _ _ Hup) as (Htag & _ & -> & _). simpl.
    split_and!; [done|done|].
    destruct (extension_tag_spec (upload_filename file)) as [[_ E]|E]; [|done].
    rewrite E in Htag.
    repeat (apply elem_of_cons in Htag as [Htag|Htag]; [discriminate|]).
    by apply elem_of_nil in Htag.
  - intros w file1 file2 Hext.
    assert (extension_tag (upload_filename file1) = extension_tag (upload_filename file2))
      as Htag by (unfold extension_tag; by rewrite Hext).
    rewrite !upload_file_unfold. cbv zeta. rewrite Htag.
    case_bool_decide; cbn [negb]; [|done].
    destruct (on_minio_service _ _ w) as [[b1|e1] w1];
      destruct (on_minio_service _ _ w) as [[b2|e2] w2]; cbn [fst];
      repeat match goal with
        | |- context [add_commit_refresh ?n ?f ?x] =>
            destruct (add_commit_refresh n f x) as [[?|?] ?]
        | |- context [is_ConnectionError ?x] => destruct (is_ConnectionError x)
        end; cbn [fst]; split; congruence.
  - intros w file Hext (svc & bs & objs & Hs & Hm & Hb) Hfresh.
    destruct (extension_tag_listed (upload_filename file) ["csv"; "xlsx"] Hext)
      as [Htag Hdot].
    rewrite upload_file_unfold. cbv zeta.
    rewrite bool_decide_eq_true_2 by done. cbn [negb].
    rewrite (store_upload_accepted _ _ _ _ _ _ _ Hs Hm Hb).
    unfold add_commit_refresh. cbn [files set_minio next_id].
    rewrite bool_decide_eq_false_2 by done.
    eexists. split_and!; [done| |done|done].
    cbn [snd files set_files]. apply elem_of_app. right. left.
  - reflexivity.
  - intros w key new_filename payload Hget Hext (svc & bs & objs & Hs & Hm & Hb) Hfresh.
    destruct (extension_tag_listed new_filename ["csv"; "xlsx"; "xls"] Hext)
      as [Htag Hdot].
    rewrite save_merged_dataset_unfold, Hget. cbv zeta.
    assert (exists bytes ctype,
               encode_as (extension_tag new_filename) (read_json payload)
               = Ok (bytes, ctype)) as (bytes & ctype & ->).
    { unfold encode_as. case_decide; [by eexists _, _|].
      rewrite bool_decide_eq_true_2; [by eexists _, _|].
      by apply elem_of_cons in Htag as [?|?]. }
    rewrite (store_upload_accepted _ _ _ _ _ _ _ Hs Hm Hb).
    unfold add_commit_refresh. cbn [files set_minio next_id].
    rewrite bool_decide_eq_false_2 by done.
    exists (mkFileMetadata (next_id w) new_filename (extension_tag new_filename)).
    split_and!; [|done|cbn [format]; by rewrite Hdot].
    cbn [snd files set_files set_cache]. apply elem_of_app. right. left.
  - intros w w1 key new_filename rec. rewrite save_merged_dataset_unfold.
    destruct (fst (cache_get key w)) as [[payload|]|e]; try done. cbv zeta.
    destruct (encode_as _ _) as [[bytes ctype]|e]; [|done].
    destruct (on_minio_service _ _ w) as [[b|e] w']; [|done].
    unfold add_commit_refresh. case_bool_decide; [done|]. by intros [= <- _].
  - intros bytes file_format. unfold get_file_dataframe, reported_400.
    destruct (decide (PyStr.lower file_format = "csv")); [done|].
    by destruct (bool_decide (PyStr.lower file_format ∈ ["xlsx"; "xls"])).
Qed.

End UploadClaims.

(** ** The join a merge stages *)

Section JoinClaims.
Context {value : Type} `{Pandas value}.

Abbreviation World := (World value).



End JoinClaims.

(** ** The pipeline on concrete files *)

Module Runs.
Import TextCodec Sample MoreSample.

(** The two join examples of the specification. *)
Example join_correctness : pd_merge df_A df_B "id" = Ok df_AB.
Proof. run. Qed.

Example duplicate_key_join :
  pd_merge df_twice {| columns := ["id"; "y"]; rows := [["1"; "p"]] |} "id"
  = Ok {| columns := ["id"; "x"; "y"]; rows := [["1"; "a"; "p"]; ["1"; "b"; "p"]] |}.
Proof. run. Qed.

Example splitext_plain : PyStr.splitext "data.CSV" = ("data", ".CSV").
Proof. run. Qed.
Example splitext_hidden : PyStr.splitext ".csv" = (".csv", "").
Proof. run. Qed.
Example splitext_directory : PyStr.splitext "a.b/c" = ("a.b/c", "").
Proof. run. Qed.
Example splitext_last_dot : PyStr.splitext "x/..a.tar.gz" = ("x/..a.tar", ".gz").
Proof. run. Qed.

(** C1, counterexample: the payload is found, the store write goes through
    (the blob of a.csv is replaced), the catalog insert is refused because
    a.csv is registered already - and the cache entry is still there. *)
Lemma C1_entry_survives_failed_insert :
  fst (cache_get key1 staged) = Ok (Some payload_AB) /\
  fst (fetch_dataframe "a.csv" "csv" (snd (save_merged_dataset key1 "a.csv" staged)))
  = Ok df_AB /\
  fst (save_merged_dataset key1 "a.csv" staged)
  = Raise (IntegrityError "duplicate key value violates unique constraint") /\
  cache (snd (save_merged_dataset key1 "a.csv" staged)) !! key1
  = Some (payload_AB, 3600).
Proof. split_and!; run. Qed.

Lemma C1_witness :
  cache (snd (save_merged_dataset key1 "out.csv" staged)) = delete key1 (cache staged).
Proof.
  apply (C1_cache_entry_deleted_on_success_only staged
           (snd (save_merged_dataset key1 "out.csv" staged)) key1 "out.csv" payload_AB
           (Ok (mkFileMetadata 4 "out.csv" "csv"))); run.
Defined.


(** C3, at the failing input: files 1 and 3 share no key.  The merge
    succeeds and the inner join is the table with columns id, x, y and no
    rows; but the row objects staged in the cache are the empty array, from
    which no column can be read back.  The commit under out.csv writes a blob
    that is a lone newline and registers it as csv, and decoding that blob
    fails instead of giving the join. *)
Theorem C3_empty_join_loses_columns :
  fst (fetch_and_read meta_A meta_C stocked) = Ok (df_A, df_C) /\
  pd_merge df_A df_C "id" = Ok {| columns := ["id"; "x"; "y"]; rows := [] |} /\
  cache_key <$> (match fst (merge_files_temporarily key1 1 3 "id" stocked) with
                 | Ok resp => Some resp
                 | Raise _ => None
                 end) = Some key1 /\
  cache staged_empty !! key1 = Some ([], 3600) /\
  mkFileMetadata 4 "out.csv" "csv"
    ∈ files (snd (save_merged_dataset key1 "out.csv" staged_empty)) /\
  fst (fetch_blob "out.csv" (snd (save_merged_dataset key1 "out.csv" staged_empty)))
  = Ok nl /\
  fst (fetch_dataframe "out.csv" "csv"
         (snd (save_merged_dataset key1 "out.csv" staged_empty)))
  = Raise (HTTPException 400
             "Error reading file into DataFrame: No columns to parse from file") /\
  fst (fetch_dataframe "out.csv" "csv"
         (snd (save_merged_dataset key1 "out.csv" staged_empty)))
  <> Ok {| columns := ["id"; "x"; "y"]; rows := [] |}.
Proof.
  split_and!; try run.
  - vm_compute. repeat constructor.
  - vm_compute. discriminate.
Qed.

Lemma C4_witness :
  fst (load_minio_service unloaded_blind) = Ok tt /\
  minio_service booted_blind = None /\
  forall w' : World string,
    minio_service w' = None ->
    upload_file file_A w'
    = (Raise (HTTPException 500
                "Failed to upload file to MinIO: 'NoneType' object has no attribute 'upload_file'"),
       w').
Proof.
  apply (C4_construction_failure_swallowed unloaded_blind refused file_A);
    [reflexivity|]. vm_compute. left.
Defined.





Lemma C7_witness :
  save_merged_dataset key1 "out.csv" (elapse 4000 staged)
  = (Raise (HTTPException 404 "Merged dataset not found or has expired in cache."),
     elapse 4000 staged).
Proof.
  apply (C7_absent_or_expired_is_404 (elapse 4000 staged) key1 "out.csv").
  right. exists payload_AB, 3600. split; [run|]. vm_compute. reflexivity.
Defined.

Lemma C8_witness :
  merge_files_temporarily key1 1 2 "x" stocked
  = (Raise (HTTPException 400 "Common column 'x' not found."), stocked).
Proof.
  apply (C8_missing_join_column stocked key1 1 2 "x" meta_A meta_B df_A df_B);
    [run|run|run|]. right. reflexivity.
Defined.


Lemma C10_witness :
  (exists row,
      fst (upload_file file_report stocked) = Ok row /\
      row ∈ files (snd (upload_file file_report stocked)) /\
      filename row = "Report.XLSX" /\
      String "." (format row) = PyStr.lower (snd (PyStr.splitext "Report.XLSX"))) /\
  (exists row,
      row ∈ files (snd (save_merged_dataset key1 "Out.Csv" staged)) /\
      filename row = "Out.Csv" /\
      String "." (format row) = PyStr.lower (snd (PyStr.splitext "Out.Csv"))) /\
  get_file_dataframe (upload_content file_A) "CSV"
  = reported_400 (read_csv (upload_content file_A)).
Proof.
  destruct (C10_extension_case_insensitive (value := string))
    as (_ & _ & Hupload & _ & Hcommit & _ & Hdecode).
  split_and!.
  - apply (Hupload stocked file_report); [vm_compute; right; left|accepts|].
    vm_compute. not_listed.
  - apply (Hcommit staged key1 "Out.Csv" payload_AB); [run|vm_compute; left|accepts|].
    vm_compute. not_listed.
  - apply (Hdecode (upload_content file_A) "CSV").
Defined.

End Runs.

(** ** More on uploads and the store *)

Section MoreUpload.
Context {value : Type} `{Pandas value}.

#[local] Arguments extension_tag : simpl never.

Abbreviation World := (World value).

Lemma store_blob_accepted (name bytes ctype : string) (w : World)
    (svc : MinioService) (bs : gmap string (gmap string object))
    (objs : gmap string object) :
  minio_service w = Some svc -> minio w = Serving bs ->
  bs !! bucket_name svc = Some objs ->
  store_blob name bytes ctype w
  = (Ok true,
     set_minio (Serving (<[bucket_name svc := <[name := mkObject bytes ctype]> objs]> bs)) w).
Proof. apply store_upload_accepted. Qed.

Lemma fetch_blob_same_world (name : string) (w : World) :
  snd (fetch_blob name w) = w.
Proof.
  unfold fetch_blob, on_minio_service, MinioService_fetch_file.
  destruct (minio_service w); [apply get_object_same_world|done].
Qed.

(** The format gate of an upload: the answer is the 400 'Invalid file
    format.' exactly when the tag of the name is neither csv nor xlsx, and
    then neither the store nor the catalog has been touched; with one of the
    two tags an upload never answers a 400. *)
Theorem upload_format_gate (w : World) (file : UploadFile) :
  (extension_tag (upload_filename file) ∉ ["csv"; "xlsx"] ->
   upload_file file w = (Raise (HTTPException 400 "Invalid file format."), w)) /\
  (extension_tag (upload_filename file) ∈ ["csv"; "xlsx"] ->
   forall detail, fst (upload_file file w) <> Raise (HTTPException 400 detail)).
Proof.
  rewrite upload_file_unfold. cbv zeta. split.
  - intros Hnot. by rewrite bool_decide_eq_false_2.
  - intros Hin detail. rewrite bool_decide_eq_true_2 by done. simpl.
    destruct (on_minio_service _ _ w) as [[b|e] w1]; simpl.
    + unfold add_commit_refresh. by case_bool_decide.
    + by destruct (is_ConnectionError e).
Qed.

(** A store that fails during an upload: when the client call raises [e],
    the upload answers 503 if [e] is a connection error and 500 otherwise,
    quoting [e], and nothing is registered - the world is as before. *)
Theorem upload_store_failure (w : World) (file : UploadFile) (svc : MinioService)
    (e : exn) :
  extension_tag (upload_filename file) ∈ ["csv"; "xlsx"] ->
  minio_service w = Some svc -> minio w = Failing e ->
  upload_file file w
  = (Raise (if is_ConnectionError e
            then HTTPException 503 ("MinIO Service Unavailable: " +:+ exn_str e)
            else HTTPException 500 ("Failed to upload file to MinIO: " +:+ exn_str e)),
     w).
Proof.
  intros Htag Hs Hm. rewrite upload_file_unfold. cbv zeta.
  rewrite bool_decide_eq_true_2 by done. simpl.
  unfold on_minio_service, MinioService_upload_file, put_object. unfold_handler.
  by rewrite Hs, Hm.
Qed.

(** Re-uploading a registered name: the upload is refused with the
    database error and the catalog is unchanged, yet the blob stored under
    the name has already been replaced by the new bytes. *)
Theorem upload_duplicate_replaces_blob (w : World) (file : UploadFile) :
  extension_tag (upload_filename file) ∈ ["csv"; "xlsx"] ->
  store_accepts w ->
  upload_filename file ∈ filename <$> files w ->
  fst (upload_file file w)
  = Raise (HTTPException 500 "Database error: Failed to store file metadata.") /\
  files (snd (upload_file file w)) = files w /\
  fst (fetch_blob (upload_filename file) (snd (upload_file file w)))
  = Ok (upload_content file).
Proof.
  intros Htag (svc & bs & objs & Hs & Hm & Hb) Hdup.
  rewrite upload_file_unfold. cbv zeta.
  rewrite bool_decide_eq_true_2 by done. simpl.
  rewrite (store_upload_accepted _ _ _ _ _ _ _ Hs Hm Hb).
  rewrite add_commit_refresh_duplicate by done. simpl.
  split_and!; [done|done|].
  unfold fetch_blob, on_minio_service, MinioService_fetch_file, get_object. simpl.
  by rewrite Hs, !lookup_insert_eq.
Qed.

(** An upload that answered can be read back: the blob under the name is the
    uploaded content, and decoding it with the registered format is decoding
    the upload. *)
Theorem upload_then_read_back (w w1 : World) (file : UploadFile) (rec : FileMetadata) :
  upload_file file w = (Ok rec, w1) ->
  fetch_blob (filename rec) w1 = (Ok (upload_content file), w1) /\
  fetch_dataframe (filename rec) (format rec) w1
  = (get_file_dataframe (upload_content file) (format rec), w1).
Proof.
  rewrite upload_file_unfold. cbv zeta.
  destruct (negb _); [done|].
  destruct (store_upload_cases (upload_filename file) (upload_content file)
              (upload_content_type file) w)
    as [[e ->]|(svc & bs & objs & Hs & Hm & Hb & ->)]; [done|].
  unfold add_commit_refresh. simpl. case_bool_decide; [done|].
  intros [= <- <-]. simpl.
  assert (fetch_blob (upload_filename file)
            (set_files
               (files w ++ [mkFileMetadata (next_id w) (upload_filename file)
                              (extension_tag (upload_filename file))])%list
               (next_id w + 1)
               (set_minio
                  (Serving (<[bucket_name svc :=
                                <[upload_filename file :=
                                    mkObject (upload_content file)
                                      (upload_content_type file)]> objs]> bs)) w))
          = (Ok (upload_content file),
             set_files
               (files w ++ [mkFileMetadata (next_id w) (upload_filename file)
                              (extension_tag (upload_filename file))])%list
               (next_id w + 1)
               (set_minio
                  (Serving (<[bucket_name svc :=
                                <[upload_filename file :=
                                    mkObject (upload_content file)
                                      (upload_content_type file)]> objs]> bs)) w)))
    as Hfetch.
  { unfold fetch_blob, on_minio_service, MinioService_fetch_file, get_object. simpl.
    by rewrite Hs, !lookup_insert_eq. }
  split; [done|].
  unfold fetch_dataframe. unfold fetch_blob in Hfetch. unfold_handler.
  by rewrite Hfetch.
Qed.

End MoreUpload.

(** ** More on the catalog *)

Section MoreCatalog.
Context {value : Type} `{Pandas value}.

#[local] Arguments extension_tag : simpl never.

Abbreviation World := (World value).

(** Both writers of the catalog - upload and commit - are a store write
    followed by an insert; this is all they do to [files] and [next_id]. *)
Lemma insert_after_store_write (name bytes ctype fmt : string) (w : World) :
  let w1 := snd (store_blob name bytes ctype w) in
  files w1 = files w /\ next_id w1 = next_id w /\
  match add_commit_refresh name fmt w1 with
  | (Ok row, w2) =>
      row = mkFileMetadata (next_id w) name fmt /\
      (name ∉ filename <$> files w) /\
      files w2 = (files w ++ [row])%list /\ next_id w2 = next_id w + 1
  | (Raise _, w2) => files w2 = files w /\ next_id w2 = next_id w
  end.
Proof.
  simpl. destruct (store_upload_same_files name bytes ctype w) as [Hf Hn].
  unfold store_blob. split_and!; [done|done|].
  unfold add_commit_refresh. rewrite Hf, Hn.
  case_bool_decide; simpl; by rewrite ?Hf, ?Hn.
Qed.

(** What an upload does to the catalog, whatever it answers. *)
Lemma upload_file_catalog (file : UploadFile) (w : World) :
  match upload_file file w with
  | (Ok row, w2) =>
      row = mkFileMetadata (next_id w) (upload_filename file)
              (extension_tag (upload_filename file)) /\
      extension_tag (upload_filename file) ∈ ["csv"; "xlsx"] /\
      (upload_filename file ∉ filename <$> files w) /\
      files w2 = (files w ++ [row])%list /\ next_id w2 = next_id w + 1
  | (Raise _, w2) => files w2 = files w /\ next_id w2 = next_id w
  end.
Proof.
  rewrite upload_file_unfold. cbv zeta. case_bool_decide as Htag; cbn [negb]; [|done].
  pose proof (insert_after_store_write (upload_filename file) (upload_content file)
                (upload_content_type file) (extension_tag (upload_filename file)) w)
    as (Hf & Hn & Hins).
  unfold store_blob in *.
  destruct (on_minio_service _ _ w) as [[b|e] w1]; simpl in *; [|done].
  destruct (add_commit_refresh _ _ w1) as [[row|e] w2]; [|done].
  destruct Hins as (-> & ? & ? & ?). done.
Qed.

(** What a commit does to the catalog, whatever it answers. *)
Lemma save_merged_dataset_catalog (key new_filename : string) (w : World) :
  match save_merged_dataset key new_filename w with
  | (Ok row, w2) =>
      row = mkFileMetadata (next_id w) new_filename (extension_tag new_filename) /\
      extension_tag new_filename ∈ ["csv"; "xlsx"; "xls"] /\
      (new_filename ∉ filename <$> files w) /\
      files w2 = (files w ++ [row])%list /\ next_id w2 = next_id w + 1
  | (Raise _, w2) => files w2 = files w /\ next_id w2 = next_id w
  end.
Proof.
  rewrite save_merged_dataset_unfold.
  destruct (fst (cache_get key w)) as [[payload|]|e]; try done. simpl.
  destruct (encode_as _ _) as [[bytes ctype]|e] eqn:Henc; [|done].
  assert (extension_tag new_filename ∈ ["csv"; "xlsx"; "xls"]) as Htag.
  { unfold encode_as in Henc. case_decide as Hcsv; [rewrite Hcsv; left|].
    case_bool_decide; [by right|done]. }
  pose proof (insert_after_store_write new_filename bytes ctype
                (extension_tag new_filename) w) as (Hf & Hn & Hins).
  unfold store_blob in *.
  destruct (on_minio_service _ _ w) as [[b|e] w1]; simpl in *; [|done].
  destruct (add_commit_refresh _ _ w1) as [[row|e] w2]; [|done].
  destruct Hins as (-> & ? & ? & ?). done.
Qed.

Lemma merge_files_temporarily_cache_only (uuid4 : string) (file_id_1 file_id_2 : Z)
    (common_column : string) (w : World) :
  cache_only w (snd (merge_files_temporarily uuid4 file_id_1 file_id_2 common_column w)).
Proof.
  rewrite merge_files_temporarily_unfold. unfold cache_only.
  by repeat case_match.
Qed.

(** The listing of [GET /files] over an upload: an upload that answers adds
    exactly the answered row to the rows listed; an upload that fails - at
    the format check, at the store or at the insert - leaves the rows listed
    as they were. *)
Theorem listing_after_upload (w : World) (file : UploadFile) :
  listing_moves w (snd (upload_file file w)) (fst (upload_file file w)).
Proof.
  pose proof (upload_file_catalog file w) as Hc.
  destruct (upload_file file w) as [[row|e] w2]; unfold listing_moves, listed; simpl.
  - destruct Hc as (_ & _ & _ & -> & _).
    symmetry. apply Permutation_cons_append.
  - destruct Hc as [-> _]. done.
Qed.

Lemma ids_fresh_insert (w w2 : World) (row : FileMetadata) :
  ids_fresh w -> id row = next_id w ->
  files w2 = (files w ++ [row])%list -> next_id w2 = next_id w + 1 ->
  ids_fresh w2.
Proof.
  intros [Hlt Hnd] Hid Hf Hn. unfold ids_fresh. rewrite Hf, Hn. split.
  - apply Forall_app. split; [|apply Forall_singleton; lia].
    eapply Forall_impl; [exact Hlt|]. simpl. intros r. lia.
  - rewrite fmap_app. simpl. apply NoDup_app. split_and!; [done| |apply NoDup_singleton].
    intros i (r & -> & Hr)%list_elem_of_fmap Heq%list_elem_of_singleton.
    rewrite Forall_forall in Hlt. specialize (Hlt r Hr). simpl in Hlt. lia.
Qed.

Lemma find_inserted (rows : list FileMetadata) (row : FileMetadata) :
  Forall (fun r => id r < id row) rows ->
  List.find (fun r => bool_decide (id r = id row)) (rows ++ [row])%list = Some row.
Proof.
  induction 1 as [|r t Hr _ IH]; simpl.
  - by rewrite bool_decide_eq_true_2.
  - rewrite bool_decide_eq_false_2 by lia. done.
Qed.

(** The primary key: every handler keeps the identities of the catalog
    distinct and below the sequence, and the record an upload or a commit
    answers is the one its identity is resolved to afterwards. *)
Theorem identities_resolve (w : World) :
  ids_fresh w ->
  (forall file,
      ids_fresh (snd (upload_file file w)) /\
      forall row, fst (upload_file file w) = Ok row ->
                  fst (query_first (id row) (snd (upload_file file w))) = Ok (Some row)) /\
  (forall key new_filename,
      ids_fresh (snd (save_merged_dataset key new_filename w)) /\
      forall row, fst (save_merged_dataset key new_filename w) = Ok row ->
                  fst (query_first (id row) (snd (save_merged_dataset key new_filename w)))
                  = Ok (Some row)) /\
  (forall uuid4 file_id_1 file_id_2 common_column,
      ids_fresh (snd (merge_files_temporarily uuid4 file_id_1 file_id_2 common_column w))) /\
  ids_fresh (snd (view_stored_files w)).
Proof.
  intros Hfresh.
  assert (forall (r : outcome FileMetadata) (w2 : World),
             match r with
             | Ok row => id row = next_id w /\ files w2 = (files w ++ [row])%list /\
                         next_id w2 = next_id w + 1
             | Raise _ => files w2 = files w /\ next_id w2 = next_id w
             end ->
             ids_fresh w2 /\
             forall row, r = Ok row -> fst (query_first (id row) w2) = Ok (Some row))
    as Hwrite.
  { intros [row|e] w2.
    - intros (Hid & Hf & Hn). split; [by eapply ids_fresh_insert|].
      intros ? [= <-]. unfold query_first. simpl. rewrite Hf. f_equal.
      apply find_inserted. rewrite Hid. apply Hfresh.
    - intros [Hf Hn]. split; [|done]. unfold ids_fresh. rewrite Hf, Hn. done. }
  split_and!.
  - intros file. apply Hwrite. pose proof (upload_file_catalog file w) as Hc.
    destruct (upload_file file w) as [[row|e] w2]; simpl; [|done].
    destruct Hc as (-> & _ & _ & -> & ->). done.
  - intros key new_filename. apply Hwrite.
    pose proof (save_merged_dataset_catalog key new_filename w) as Hc.
    destruct (save_merged_dataset key new_filename w) as [[row|e] w2]; simpl; [|done].
    destruct Hc as (-> & _ & _ & -> & ->). done.
  - intros.
    destruct (merge_files_temporarily_cache_only uuid4 file_id_1 file_id_2 common_column w)
      as (_ & _ & Hf & Hn & _).
    unfold ids_fresh. by rewrite Hf, Hn.
  - done.
Qed.

(** The formats of the catalog: every handler keeps the tags of [files]
    within csv, xlsx and xls, and so the decoding of a registered file is
    always handed to one of the two readers - the branch for an unsupported
    format is never taken for it. *)
Theorem registered_formats_are_readable (w : World) :
  known_formats w ->
  (forall file, known_formats (snd (upload_file file w))) /\
  (forall key new_filename, known_formats (snd (save_merged_dataset key new_filename w))) /\
  (forall uuid4 file_id_1 file_id_2 common_column,
      known_formats
        (snd (merge_files_temporarily uuid4 file_id_1 file_id_2 common_column w))) /\
  (forall row bytes,
      row ∈ files w ->
      get_file_dataframe bytes (format row)
      = reported_400 (if decide (format row = "csv") then read_csv bytes
                      else read_excel bytes)).
Proof.
  intros Hknown. split_and!.
  - intros file. pose proof (upload_file_catalog file w) as Hc.
    destruct (upload_file file w) as [[row|e] w2]; simpl; unfold known_formats.
    + destruct Hc as (-> & Htag & _ & -> & _). apply Forall_app. split; [done|].
      apply Forall_singleton. simpl.
      apply elem_of_cons in Htag as [->|Htag]; [left|].
      apply list_elem_of_singleton in Htag as ->. right. left.
    + destruct Hc as [-> _]. done.
  - intros key new_filename.
    pose proof (save_merged_dataset_catalog key new_filename w) as Hc.
    destruct (save_merged_dataset key new_filename w) as [[row|e] w2]; simpl;
      unfold known_formats.
    + destruct Hc as (-> & Htag & _ & -> & _). apply Forall_app. split; [done|].
      by apply Forall_singleton.
    + destruct Hc as [-> _]. done.
  - intros.
    destruct (merge_files_temporarily_cache_only uuid4 file_id_1 file_id_2 common_column w)
      as (_ & _ & Hf & _). unfold known_formats. by rewrite Hf.
  - intros row bytes Hrow. unfold known_formats in Hknown.
    rewrite Forall_forall in Hknown. specialize (Hknown row Hrow).
    unfold get_file_dataframe, reported_400.
    repeat (apply elem_of_cons in Hknown as [->|Hknown]); [done|done|done|].
    by apply elem_of_nil in Hknown.
Qed.

End MoreCatalog.

(** ** More on merging and decoding *)

Section MoreMerge.
Context {value : Type} `{Pandas value}.

#[local] Arguments extension_tag : simpl never.

Abbreviation World := (World value).

(** Decoding fails in one way only: whatever the reader raised, and also an
    unsupported format tag, comes out as a 400 whose detail starts with
    'Error reading file into DataFrame: '; a tag that lowercases to none of
    csv, xlsx and xls is refused without looking at the bytes. *)
Theorem decode_failures_are_400 (bytes file_format : string) :
  (forall e, get_file_dataframe bytes file_format = Raise e ->
             exists cause,
               e = HTTPException 400 ("Error reading file into DataFrame: " +:+ cause)) /\
  (PyStr.lower file_format ∉ ["csv"; "xlsx"; "xls"] ->
   get_file_dataframe bytes file_format
   = Raise (HTTPException 400
              "Error reading file into DataFrame: Unsupported file format.")).
Proof.
  unfold get_file_dataframe. split.
  - intros e. destruct (if decide _ then _ else _) as [df|e']; [done|].
    intros [= <-]. by eexists.
  - intros Hnot. rewrite decide_False, bool_decide_eq_false_2; [done| |].
    + intros Hin. apply Hnot. by right.
    + intros Heq. apply Hnot. rewrite Heq. left.
Qed.

Lemma find_absent (rows : list FileMetadata) (i : Z) :
  i ∉ id <$> rows -> List.find (fun r => bool_decide (id r = i)) rows = None.
Proof.
  induction rows as [|r t IH]; [done|]. simpl. intros Hnot.
  rewrite bool_decide_eq_false_2.
  - apply IH. intros Hin. apply Hnot. by right.
  - intros Heq. apply Hnot. rewrite <- Heq. left.
Qed.

(** An identity the catalog does not hold: the merge answers 404 before any
    blob is fetched - also when the store cannot be used at all - and the
    world is as before. *)
Theorem merge_unknown_id (w : World) (uuid4 : string) (file_id_1 file_id_2 : Z)
    (common_column : string) :
  file_id_1 ∉ id <$> files w \/ file_id_2 ∉ id <$> files w ->
  merge_files_temporarily uuid4 file_id_1 file_id_2 common_column w
  = (Raise (HTTPException 404 "One or both file IDs not found."), w).
Proof.
  intros Hmissing. rewrite merge_files_temporarily_unfold.
  destruct Hmissing as [H1|H2].
  - by rewrite (find_absent _ _ H1).
  - rewrite (find_absent _ _ H2). by destruct (List.find _ (files w)).
Qed.

Lemma fetch_and_read_failure (meta1 meta2 : FileMetadata) (w : World) (e : exn) :
  fst (fetch_and_read meta1 meta2 w) = Raise e ->
  exists cause, e = HTTPException 500 ("Error fetching/reading files: " +:+ cause).
Proof.
  unfold fetch_and_read, try_except.
  match goal with
  | |- context [match ?body with pair _ _ => _ end] =>
      destruct body as [[dfs|e'] w1]
  end; [done|].
  simpl. intros [= <-]. by eexists.
Qed.

(** A merge writes to the result cache only, and only when it answers: the
    store, the catalog and the clock are never changed, and a merge that
    fails leaves the whole world as it was. *)
Theorem merge_writes_cache_only (w : World) (uuid4 : string) (file_id_1 file_id_2 : Z)
    (common_column : string) :
  cache_only w (snd (merge_files_temporarily uuid4 file_id_1 file_id_2 common_column w)) /\
  (forall e,
      fst (merge_files_temporarily uuid4 file_id_1 file_id_2 common_column w) = Raise e ->
      snd (merge_files_temporarily uuid4 file_id_1 file_id_2 common_column w) = w).
Proof.
  split; [apply merge_files_temporarily_cache_only|].
  intros e. rewrite merge_files_temporarily_unfold. by repeat case_match.
Qed.

(** The HTTP errors of a merge: a 404 for an unknown identity, a 500 quoting
    the cause for anything that goes wrong while fetching or decoding, or a
    400 naming a missing join column.  In particular the 400 of the decoder
    never reaches the client as such: it is wrapped into the 500. *)
Theorem merge_failures (w : World) (uuid4 : string) (file_id_1 file_id_2 : Z)
    (common_column : string) (status : Z) (detail : string) :
  fst (merge_files_temporarily uuid4 file_id_1 file_id_2 common_column w)
  = Raise (HTTPException status detail) ->
  merge_failure common_column status detail.
Proof.
  rewrite merge_files_temporarily_unfold.
  destruct (List.find (fun r => bool_decide (id r = file_id_1)) (files w)) as [meta1|];
    [|intros [= <- <-]; constructor].
  destruct (List.find (fun r => bool_decide (id r = file_id_2)) (files w)) as [meta2|];
    [|intros [= <- <-]; constructor].
  destruct (fst (fetch_and_read meta1 meta2 w)) as [[df1 df2]|e'] eqn:Hread.
  - destruct (has_column common_column df1) eqn:H1; [|intros [= <- <-]; constructor].
    destruct (has_column common_column df2) eqn:H2; [|intros [= <- <-]; constructor].
    simpl.
    destruct (pd_merge df1 df2 common_column) as [merged_df|e] eqn:Hjoin.
    + unfold to_json. by case_decide.
    + assert (e = LibraryError common_column) as ->
        by (revert Hjoin; unfold pd_merge; repeat case_match; congruence).
      done.
  - destruct (fetch_and_read_failure _ _ _ _ Hread) as [cause ->].
    intros [= <- <-]. constructor.
Qed.

(** A record whose blob is gone: when the first file of a merge is in the
    catalog but its name is not in the bucket, the merge answers a 500 that
    quotes the S3 error of the missing key, and the world is as before. *)
Theorem merge_orphan_record (w : World) (uuid4 : string) (file_id_1 file_id_2 : Z)
    (common_column : string) (meta1 meta2 : FileMetadata) (svc : MinioService)
    (bs : gmap string (gmap string object)) (objs : gmap string object) :
  fst (query_first file_id_1 w) = Ok (Some meta1) ->
  fst (query_first file_id_2 w) = Ok (Some meta2) ->
  minio_service w = Some svc -> minio w = Serving bs ->
  bs !! bucket_name svc = Some objs ->
  objs !! filename meta1 = None ->
  merge_files_temporarily uuid4 file_id_1 file_id_2 common_column w
  = (Raise (HTTPException 500
              ("Error fetching/reading files: " +:+ exn_str (S3Error "NoSuchKey"))), w).
Proof.
  unfold query_first. simpl. intros [= Hq1] [= Hq2] Hs Hm Hb Hgone.
  rewrite merge_files_temporarily_unfold, Hq1, Hq2.
  unfold fetch_and_read, on_minio_service, MinioService_fetch_file, get_object.
  unfold_handler. by rewrite Hs, Hm, Hb, Hgone.
Qed.

(** The shape of a join: the joined table is rectangular, keeps the join
    column where the left table has it, has one column less than the two
    tables together, and has at most as many rows as there are pairs of
    rows. *)
Theorem join_shape (df1 df2 joined : DataFrame value) (on : string) :
  rectangular df1 -> rectangular df2 ->
  pd_merge df1 df2 on = Ok joined ->
  rectangular joined /\
  (exists i1, column_index on (columns df1) = Some i1 /\ columns joined !! i1 = Some on) /\
  S (length (columns joined)) = (length (columns df1) + length (columns df2))%nat /\
  (length (rows joined) <= length (rows df1) * length (rows df2))%nat.
Proof.
  intros Hr1 Hr2 Hjoin.
  split; [eapply pd_merge_rectangular; [exact Hr1|exact Hr2|exact Hjoin]|].
  revert Hjoin. unfold pd_merge.
  destruct (column_index on (columns df1)) as [i1|] eqn:E1; [|done].
  destruct (column_index on (columns df2)) as [i2|] eqn:E2; [|done].
  intros [= <-]. simpl.
  pose proof (column_index_lookup _ _ _ E1) as L1.
  pose proof (column_index_lookup _ _ _ E2) as L2.
  split_and!.
  - exists i1. split; [done|].
    rewrite lookup_app_l by (rewrite length_fmap; by eapply lookup_lt_Some).
    rewrite list_lookup_fmap, L1. simpl. unfold suffix_left.
    by rewrite decide_True.
  - rewrite length_app, !length_fmap, length_delete by done.
    apply lookup_lt_Some in L2. lia.
  - clear. induction (rows df1) as [|r1 t IH]; [done|].
    rewrite inner_join_rows_cons, length_app, length_fmap. simpl.
    pose proof (length_filter (fun r2 => r1 !! i1 = r2 !! i2) (rows df2)). lia.
Qed.

End MoreMerge.

(** ** More on commits, on the service and on file names *)

Section MoreCommit.
Context {value : Type} `{Pandas value}.

#[local] Arguments extension_tag : simpl never.

Abbreviation World := (World value).

(** A commit under a name that is registered already: the insert is refused
    and its error is not caught - the handler ends with the integrity error
    itself, not with an HTTP error of its own - the catalog and the staged
    entry are as before, yet the blob stored under that name has been
    replaced by the encoded merge result. *)
Theorem commit_duplicate_replaces_blob (w : World) (key new_filename : string)
    (payload : list (record value)) (bytes ctype : string) :
  fst (cache_get key w) = Ok (Some payload) ->
  encode_as (extension_tag new_filename) (read_json payload) = Ok (bytes, ctype) ->
  store_accepts w ->
  new_filename ∈ filename <$> files w ->
  fst (save_merged_dataset key new_filename w)
  = Raise (IntegrityError "duplicate key value violates unique constraint") /\
  files (snd (save_merged_dataset key new_filename w)) = files w /\
  fst (cache_get key (snd (save_merged_dataset key new_filename w))) = Ok (Some payload) /\
  fst (fetch_blob new_filename (snd (save_merged_dataset key new_filename w))) = Ok bytes.
Proof.
  intros Hget Henc (svc & bs & objs & Hs & Hm & Hb) Hdup.
  rewrite save_merged_dataset_unfold, Hget. cbv zeta. rewrite Henc.
  rewrite (store_upload_accepted _ _ _ _ _ _ _ Hs Hm Hb).
  rewrite add_commit_refresh_duplicate by done. simpl.
  split_and!; [done|done|exact Hget|].
  unfold fetch_blob, on_minio_service, MinioService_fetch_file, get_object. simpl.
  by rewrite Hs, !lookup_insert_eq.
Qed.

(** Loading the service module against a serving MinIO: the global is bound
    to a service for the bucket [data-files], which exists afterwards; a
    bucket that was there keeps its objects, no other bucket is touched, and
    loading a second time changes nothing. *)
Theorem service_construction (w : World) (bs : gmap string (gmap string object)) :
  minio w = Serving bs ->
  let w1 := snd (load_minio_service w) in
  fst (load_minio_service w) = Ok tt /\
  minio_service w1 = Some (mkMinioService "data-files") /\
  store_accepts w1 /\
  (exists bs1, minio w1 = Serving bs1 /\
               forall b objs, bs !! b = Some objs -> bs1 !! b = Some objs) /\
  files w1 = files w /\ cache w1 = cache w /\
  snd (load_minio_service w1) = w1.
Proof.
  intros Hm.
  assert (forall (w0 : World) (bs0 : gmap string (gmap string object)),
             minio w0 = Serving bs0 ->
             load_minio_service w0
             = (Ok tt,
                set_minio_service (Some (mkMinioService "data-files"))
                  (match bs0 !! "data-files" with
                   | Some _ => w0
                   | None => set_minio (Serving (<["data-files" := ∅]> bs0)) w0
                   end))) as Hload.
  { intros w0 bs0 H0.
    unfold load_minio_service, MinioService_init, _ensure_bucket_exists,
      bucket_exists, make_bucket, MINIO_BUCKET_NAME.
    unfold_handler. simpl. rewrite H0.
    destruct (bs0 !! "data-files") as [objs|] eqn:Hb.
    - rewrite bool_decide_eq_true_2 by by eexists. done.
    - rewrite bool_decide_eq_false_2 by (by intros [? ?]). simpl. by rewrite H0. }
  simpl. rewrite (Hload w bs Hm). simpl.
  destruct (bs !! "data-files") as [objs|] eqn:Hb; simpl.
  - split_and!; try done.
    + exists (mkMinioService "data-files"), bs, objs. by split_and!.
    + by exists bs.
    + rewrite (Hload _ bs) by done. rewrite Hb. done.
  - split_and!; try done.
    + exists (mkMinioService "data-files"), (<["data-files" := ∅]> bs), ∅.
      split_and!; [done|done|]. simpl. apply lookup_insert_eq.
    + exists (<["data-files" := ∅]> bs). split; [done|].
      intros b objs Hbo. rewrite lookup_insert_ne; [done|]. intros <-. congruence.
    + rewrite (Hload _ (<["data-files" := ∅]> bs)) by done.
      by rewrite lookup_insert_eq.
Qed.

(** A service that cannot be constructed: whatever the client raised, the
    constructor raises a connection error and changes nothing; the cause is
    quoted in its message unless it was an S3 error, whose text is replaced
    on the way by the fixed 'Could not connect' message. *)
Theorem service_construction_failure (w : World) (e : exn) :
  minio w = Failing e ->
  MinioService_init w
  = (Raise (ConnectionError
              ("Could not initialize MinIO client: "
               +:+ (if is_S3Error e then "Could not connect to MinIO. Is it running?"
                    else exn_str e)
               +:+ ". Is MinIO running?")), w).
Proof.
  intros Hm. unfold MinioService_init, _ensure_bucket_exists, bucket_exists.
  unfold_handler. rewrite Hm. by destruct (is_S3Error e).
Qed.

(** Writing and fetching through the service: after a write that went
    through, the name fetches the bytes just written - an earlier blob of
    that name is gone - while every other name fetches what it fetched
    before; a name the bucket does not hold raises the S3 error
    NoSuchKey. *)
Theorem store_then_fetch (w : World) (self : MinioService)
    (bs : gmap string (gmap string object)) (objs : gmap string object)
    (name bytes ctype : string) :
  minio w = Serving bs -> bs !! bucket_name self = Some objs ->
  let w1 := snd (MinioService_upload_file self name bytes ctype w) in
  fst (MinioService_upload_file self name bytes ctype w) = Ok true /\
  MinioService_fetch_file self name w1 = (Ok bytes, w1) /\
  (forall other, other <> name ->
                 fst (MinioService_fetch_file self other w1)
                 = fst (MinioService_fetch_file self other w)) /\
  (forall other, objs !! other = None -> other <> name ->
                 fst (MinioService_fetch_file self other w1) = Raise (S3Error "NoSuchKey")).
Proof.
  intros Hm Hb. unfold MinioService_upload_file, MinioService_fetch_file,
    put_object, get_object. unfold_handler. simpl. rewrite Hm, Hb. simpl.
  rewrite !lookup_insert_eq. split_and!; try done.
  - intros other Hne. rewrite lookup_insert_ne by congruence.
    by destruct (objs !! other).
  - intros other Hnone Hne. rewrite lookup_insert_ne by congruence.
    by rewrite Hnone.
Qed.

End MoreCommit.

(** ** The names an upload accepts *)

Lemma of_chars_app (l1 l2 : list ascii) :
  PyStr.of_chars (l1 ++ l2) = PyStr.of_chars l1 +:+ PyStr.of_chars l2.
Proof. induction l1 as [|c t IH]; simpl; [done|]. by rewrite IH. Qed.

Lemma append_empty (s : string) : s = s +:+ "".
Proof.
  induction s as [|c s IH]; [reflexivity|].
  change (String c s = String c (s +:+ "")). by rewrite <- IH.
Qed.

(** [splitext] cuts the name in two, and an extension is only cut off a name
    whose stem is not empty. *)
Lemma splitext_parts (name : string) :
  name = fst (PyStr.splitext name) +:+ snd (PyStr.splitext name) /\
  (snd (PyStr.splitext name) <> "" -> fst (PyStr.splitext name) <> "").
Proof.
  unfold PyStr.splitext.
  set (p := PyStr.chars name).
  destruct (Z.ltb_spec (PyStr.rfind "/" p) (PyStr.rfind "." p)) as [Hlt|Hge];
    simpl; [|split; [|done]].
  2: { apply append_empty. }
  destruct (PyStr.has_stem _ _ _ _) eqn:Hstem; simpl.
  2: { split; [apply append_empty|done]. }
  split.
  - unfold PyStr.slice_to, PyStr.slice_from.
    rewrite <- of_chars_app, take_drop. unfold p. by rewrite of_chars_chars.
  - intros _.
    assert (1 <= PyStr.rfind "." p) as Hpos.
    { assert (-1 <= PyStr.rfind "/" p) as Hsep
        by (unfold PyStr.rfind; destruct (rfind_from_range "/" p 0); lia).
      destruct (Z.to_nat (PyStr.rfind "." p - PyStr.rfind "/" p)) as [|n]; [done|].
      simpl in Hstem.
      destruct (Z.ltb_spec (PyStr.rfind "/" p + 1) (PyStr.rfind "." p)); [lia|done]. }
    destruct (rfind_from_split "." p 0) as (pre & post & Hp & Hlen & _);
      [lia|unfold PyStr.rfind in Hpos; lia|].
    unfold PyStr.slice_to, PyStr.rfind.
    replace (Z.to_nat (PyStr.rfind_from "." p 0)) with (length pre) by lia.
    rewrite Hp, take_app_length.
    destruct pre as [|c pre]; [simpl in Hlen; unfold PyStr.rfind in Hpos; lia|done].
Qed.

Section AcceptedNames.
Context {value : Type} `{Pandas value}.

#[local] Arguments extension_tag : simpl never.

(** The name of an accepted upload: it is a non-empty stem followed by an
    extension that lowercases to a dot and the registered format, so it ends
    in .csv or .xlsx up to case, and a bare '.csv' is never registered. *)
Theorem accepted_upload_name (w w1 : World value) (file : UploadFile)
    (rec : FileMetadata) :
  upload_file file w = (Ok rec, w1) ->
  exists stem ext,
    upload_filename file = stem +:+ ext /\ stem <> "" /\
    PyStr.lower ext = String "." (format rec) /\
    (format rec = "csv" \/ format rec = "xlsx").
Proof.
  intros Hup.
  destruct (upload_file_ok _ _ _ _ Hup) as (Htag & _ & -> & _). simpl.
  destruct (splitext_parts (upload_filename file)) as [Hparts Hstem].
  exists (fst (PyStr.splitext (upload_filename file))),
    (snd (PyStr.splitext (upload_filename file))).
  assert (extension_tag (upload_filename file) = "csv"
          \/ extension_tag (upload_filename file) = "xlsx") as Hfmt.
  { apply elem_of_cons in Htag as [?|Htag]; [by left|].
    apply list_elem_of_singleton in Htag. by right. }
  destruct (extension_tag_spec (upload_filename file)) as [[E Etag]|E].
  - rewrite Etag in Hfmt. by destruct Hfmt.
  - split_and!; [done| |done|done].
    apply Hstem. intros Hext. rewrite Hext in E. done.
Qed.

End AcceptedNames.

(** ** Further runs on concrete files *)

Module MoreRuns.
Import TextCodec Sample MoreSample.

Lemma upload_format_gate_witness :
  upload_file file_notes booted = (Raise (HTTPException 400 "Invalid file format."), booted).
Proof.
  apply (upload_format_gate booted file_notes). vm_compute. not_listed.
Defined.

Lemma upload_store_failure_witness :
  upload_file file_A_again outage
  = (Raise (HTTPException 503 "MinIO Service Unavailable: Connection refused"), outage).
Proof.
  apply (upload_store_failure outage file_A_again the_service
           (ConnectionError "Connection refused")); [|run|run].
  vm_compute. left.
Defined.

Lemma upload_duplicate_replaces_blob_witness :
  fst (upload_file file_A_again stocked)
  = Raise (HTTPException 500 "Database error: Failed to store file metadata.") /\
  files (snd (upload_file file_A_again stocked)) = files stocked /\
  fst (fetch_blob "a.csv" (snd (upload_file file_A_again stocked))) = Ok "other bytes".
Proof.
  apply (upload_duplicate_replaces_blob stocked file_A_again); [|accepts|].
  - vm_compute. left.
  - vm_compute. left.
Defined.

Lemma upload_then_read_back_witness :
  fetch_blob "a.csv" (snd (upload_file file_A booted))
  = (Ok (upload_content file_A), snd (upload_file file_A booted)) /\
  fetch_dataframe "a.csv" "csv" (snd (upload_file file_A booted))
  = (get_file_dataframe (upload_content file_A) "csv", snd (upload_file file_A booted)).
Proof.
  apply (upload_then_read_back booted (snd (upload_file file_A booted)) file_A meta_A). run.
Defined.

Lemma listing_after_upload_witness :
  listed (snd (upload_file file_report stocked))
  ≡ₚ mkFileMetadata 4 "Report.XLSX" "xlsx" :: listed stocked.
Proof.
  pose proof (listing_after_upload stocked file_report) as Hmoves.
  vm_compute in Hmoves. vm_compute. exact Hmoves.
Defined.

Lemma sample_ids_fresh : ids_fresh stocked.
Proof.
  split.
  - repeat constructor.
  - vm_compute. repeat constructor; not_listed.
Qed.

Lemma identities_resolve_witness :
  fst (query_first 4 (snd (save_merged_dataset key1 "out.csv" staged)))
  = Ok (Some (mkFileMetadata 4 "out.csv" "csv")).
Proof.
  assert (ids_fresh staged) as Hfresh.
  { destruct (identities_resolve stocked sample_ids_fresh) as (_ & _ & Hmerge & _).
    apply (Hmerge key1 1 2 "id"). }
  destruct (identities_resolve staged Hfresh) as (_ & Hsave & _).
  destruct (Hsave key1 "out.csv") as [_ Hrow].
  apply (Hrow (mkFileMetadata 4 "out.csv" "csv")). run.
Defined.

Lemma registered_formats_are_readable_witness :
  get_file_dataframe "id" (format meta_B) = reported_400 (read_csv "id").
Proof.
  assert (known_formats stocked) as Hknown.
  { repeat constructor. }
  destruct (registered_formats_are_readable stocked Hknown) as (_ & _ & _ & Hread).
  apply (Hread meta_B "id"). vm_compute. right. left.
Defined.

Lemma decode_failures_are_400_witness :
  get_file_dataframe "id,x" "TXT"
  = Raise (HTTPException 400 "Error reading file into DataFrame: Unsupported file format.").
Proof.
  apply (decode_failures_are_400 "id,x" "TXT"). vm_compute. not_listed.
Defined.

Lemma merge_unknown_id_witness :
  merge_files_temporarily key1 1 9 "id" booted_blind
  = (Raise (HTTPException 404 "One or both file IDs not found."), booted_blind).
Proof.
  apply (merge_unknown_id booted_blind key1 1 9 "id"). right. vm_compute. not_listed.
Defined.

Lemma merge_writes_cache_only_witness :
  cache_only stocked staged.
Proof. apply (merge_writes_cache_only stocked key1 1 2 "id"). Defined.

Lemma merge_failures_witness :
  merge_failure "x" 400 "Common column 'x' not found.".
Proof. apply (merge_failures stocked key1 1 2 "x"). run. Defined.

Lemma merge_orphan_record_witness :
  merge_files_temporarily key1 1 2 "id" orphaned
  = (Raise (HTTPException 500 "Error fetching/reading files: NoSuchKey"), orphaned).
Proof.
  eapply (merge_orphan_record orphaned key1 1 2 "id" meta_A meta_B the_service); run.
Defined.

Lemma join_shape_witness :
  rectangular df_AB /\
  (exists i1, column_index "id" (columns df_A) = Some i1 /\ columns df_AB !! i1 = Some "id") /\
  S (length (columns df_AB)) = (length (columns df_A) + length (columns df_B))%nat /\
  (length (rows df_AB) <= length (rows df_A) * length (rows df_B))%nat.
Proof.
  apply (join_shape (H := text_pandas) df_A df_B df_AB "id");
    [repeat constructor|repeat constructor|run].
Defined.

Lemma commit_duplicate_replaces_blob_witness :
  fst (save_merged_dataset key1 "a.csv" staged)
  = Raise (IntegrityError "duplicate key value violates unique constraint") /\
  files (snd (save_merged_dataset key1 "a.csv" staged)) = files staged /\
  fst (cache_get key1 (snd (save_merged_dataset key1 "a.csv" staged))) = Ok (Some payload_AB) /\
  fst (fetch_blob "a.csv" (snd (save_merged_dataset key1 "a.csv" staged)))
  = Ok (to_csv df_AB).
Proof.
  apply (commit_duplicate_replaces_blob staged key1 "a.csv" payload_AB
           (to_csv df_AB) "text/csv"); [run|run|accepts|].
  vm_compute. left.
Defined.

Lemma service_construction_witness :
  fst (load_minio_service unloaded) = Ok tt /\
  minio_service booted = Some (mkMinioService "data-files") /\
  store_accepts booted /\
  (exists bs1, minio booted = Serving bs1 /\
               forall b objs, (∅ : gmap string (gmap string object)) !! b = Some objs ->
                              bs1 !! b = Some objs) /\
  files booted = files unloaded /\ cache booted = cache unloaded /\
  snd (load_minio_service booted) = booted.
Proof. apply (service_construction unloaded ∅). reflexivity. Defined.

Lemma service_construction_failure_witness :
  MinioService_init unloaded_blind
  = (Raise (ConnectionError
              "Could not initialize MinIO client: Connection refused. Is MinIO running?"),
     unloaded_blind).
Proof. apply (service_construction_failure unloaded_blind refused). reflexivity. Defined.

Lemma store_then_fetch_witness :
  MinioService_fetch_file the_service "a.csv"
    (snd (MinioService_upload_file the_service "a.csv" "bytes" "text/csv" booted))
  = (Ok "bytes",
     snd (MinioService_upload_file the_service "a.csv" "bytes" "text/csv" booted)).
Proof.
  apply (store_then_fetch booted the_service empty_store ∅ "a.csv" "bytes" "text/csv"); run.
Defined.

Lemma accepted_upload_name_witness :
  exists stem ext,
    "a.csv" = stem +:+ ext /\ stem <> "" /\
    PyStr.lower ext = String "." "csv" /\ ("csv" = "csv" \/ "csv" = "xlsx").
Proof.
  apply (accepted_upload_name booted (snd (upload_file file_A booted)) file_A meta_A). run.
Defined.

End MoreRuns.
